(** * The MongoDB retrieval notebook (third_party/MongoDB/rag_using_mongodb.ipynb)

    A shallow embedding of the functions of the notebook
    ([download_and_combine_parquet_files], [get_embedding],
    [get_mongo_client], [vector_search], [handle_user_query]) and of the
    cells that connect to the database, ingest the corpus and ask the
    question.

    The notebook is glue code around remote services.  Every remote call is a
    step of an external [World]; the code is a computation in a state and
    exception monad over that world and over a log of the observable events
    (lines printed, requests issued).  Floating-point numbers are never
    inspected by the notebook: their type is a parameter, with the value
    that pandas writes for a missing entry. *)

From stdpp Require Import base strings list gmap pretty sorting.
From Stdlib Require Import Ascii NArith ZArith Lia.

Local Open Scope string_scope.
Local Open Scope Z_scope.
Local Open Scope list_scope.

(** ** Python strings

    A [str] is a Rocq [string]; each character is a code point below 256. *)

Module PyStr.

(** [str.isspace] on one character: the code points below 256 that Python
    classifies as whitespace. *)
Definition isspace (c : ascii) : bool :=
  let n := N_of_ascii c in
  ((9 <=? n) && (n <=? 13) || (28 <=? n) && (n <=? 32) ||
   (n =? 133) || (n =? 160))%N.

(** [s.lstrip()] *)
Fixpoint lstrip (s : string) : string :=
  match s with
  | EmptyString => EmptyString
  | String c s' => if isspace c then lstrip s' else s
  end.

(** [s.rstrip()] *)
Fixpoint rstrip (s : string) : string :=
  match s with
  | EmptyString => EmptyString
  | String c s' =>
      match rstrip s' with
      | EmptyString => if isspace c then EmptyString else String c EmptyString
      | r => String c r
      end
  end.

(** [s.strip()] *)
Definition strip (s : string) : string := rstrip (lstrip s).

(** Truth value of a [str]: the empty string is falsy. *)
Definition truthy (s : string) : bool :=
  match s with EmptyString => false | String _ _ => true end.

(** Every character of [s] is whitespace (true of the empty string). *)
Fixpoint all_space (s : string) : bool :=
  match s with
  | EmptyString => true
  | String c s' => isspace c && all_space s'
  end.

(** [str(n)] for an [int]. *)
Definition of_int (n : Z) : string := pretty n.

End PyStr.

(** ** Python values, exceptions and the monad of the notebook *)

Inductive exn_class :=
| IndexError
| TypeError
| AttributeError
| ConnectionFailure
| OtherError (name : string).

Record exn := Exn { exn_cls : exn_class; exn_msg : string }.

Inductive result (A : Type) :=
| Ret (a : A)
| Raise (e : exn).
Arguments Ret {A} a.
Arguments Raise {A} e.

(** Values stored in a document. *)
Inductive value (float : Type) :=
| VStr (s : string)
| VFloat (x : float)
| VVector (v : list float)
| VObjectId (oid : string)
| VNull.
Arguments VStr {float} s.
Arguments VFloat {float} x.
Arguments VVector {float} v.
Arguments VObjectId {float} oid.
Arguments VNull {float}.

(** The aggregation pipeline that [vector_search] builds. *)
Record vectorSearch_stage (float : Type) := VectorSearchStage {
  vs_index : string;
  vs_queryVector : list float;
  vs_path : string;
  vs_numCandidates : nat;
  vs_limit : nat
}.
Arguments VectorSearchStage {float}.
Arguments vs_index {float}.
Arguments vs_queryVector {float}.
Arguments vs_path {float}.
Arguments vs_numCandidates {float}.
Arguments vs_limit {float}.

Inductive projection :=
| Exclude                 (* field: 0 *)
| Meta (name : string).   (* field: {"$meta": name} *)

Inductive stage (float : Type) :=
| StVectorSearch (s : vectorSearch_stage float)
| StProject (fields : list (string * projection)).
Arguments StVectorSearch {float} s.
Arguments StProject {float} fields.

(** Handles returned by the MongoDB client. *)
Record mongo_client := MongoClientHandle { client_uri : option string }.
Record database := Database { db_client : mongo_client; db_name : string }.
Record collection := Collection { coll_db : database; coll_name : string }.

(** An HTTP response as [requests] exposes it. *)
Record response := Response { status_code : Z; content : string }.

(** The request and the response of [client.messages.create]. *)
Record chat_message := ChatMessage { role : string; msg_content : string }.
Record messages_request := MessagesRequest {
  req_model : string;
  req_max_tokens : Z;
  req_system : string;
  req_messages : list chat_message
}.
Inductive content_block :=
| TextBlock (text : string)
| OtherBlock (class_name : string).   (* a block of another class *)
Record message := Message { resp_content : list content_block }.

(** A pandas table: its columns and its records.  Each record is expected
    to hold every column of the table; where one does not, the entry is
    missing and reads as NaN. *)
Record frame (float : Type) := Frame {
  columns : gset string;
  records : list (gmap string (value float))
}.
Arguments Frame {float}.
Arguments columns {float}.
Arguments records {float}.

(** ** The external world

    [World] is the state of everything outside the notebook: the dataset host,
    the embedding service, the database, the language model.  A remote call
    takes the world to a new world and either returns or raises. *)
Record services (World float : Type) := Services {
  (* requests.get(url, headers=headers) *)
  requests_get :
    string -> list (string * string) -> World -> result response * World;
  (* pd.read_parquet(BytesIO(content)) *)
  read_parquet : string -> result (frame float);
  (* vo.embed(text, model=..., input_type=...).embeddings *)
  vo_embed :
    string -> string -> string -> World -> result (list (list float)) * World;
  (* pymongo.MongoClient(uri) *)
  MongoClient : option string -> World -> result mongo_client * World;
  (* collection.delete_many({}) *)
  delete_many : collection -> World -> result unit * World;
  (* collection.insert_many(records) *)
  insert_many :
    collection -> list (gmap string (value float)) -> World ->
    result unit * World;
  (* list(collection.aggregate(pipeline)) *)
  aggregate :
    collection -> list (stage float) -> World ->
    result (list (gmap string (value float))) * World;
  (* client.messages.create(...) *)
  messages_create : messages_request -> World -> result message * World;
  (* str(x) for a float *)
  float_str : float -> string;
  (* float('nan'), which pandas writes for a missing entry *)
  float_nan : float
}.
Arguments requests_get {World float}.
Arguments read_parquet {World float}.
Arguments vo_embed {World float}.
Arguments MongoClient {World float}.
Arguments delete_many {World float}.
Arguments insert_many {World float}.
Arguments aggregate {World float}.
Arguments messages_create {World float}.
Arguments float_str {World float}.
Arguments float_nan {World float}.

(** Observable events: what the notebook prints and which requests it
    issues, in order. *)
Inductive event (float : Type) :=
| Print (line : string)
| HttpGet (url : string) (headers : list (string * string))
| VoEmbed (text model input_type : string)
| MongoConnect (uri : option string)
| DeleteMany (coll : collection)
| InsertMany (coll : collection) (docs : list (gmap string (value float)))
| Aggregate (coll : collection) (pipeline : list (stage float))
| MessagesCreate (req : messages_request).
Arguments Print {float} line.
Arguments HttpGet {float} url headers.
Arguments VoEmbed {float} text model input_type.
Arguments MongoConnect {float} uri.
Arguments DeleteMany {float} coll.
Arguments InsertMany {float} coll docs.
Arguments Aggregate {float} coll pipeline.
Arguments MessagesCreate {float} req.

Record state (World float : Type) := State {
  world : World;
  log : list (event float)
}.
Arguments State {World float}.
Arguments world {World float}.
Arguments log {World float}.

(** What [vector_search] returns: a message string or a list of documents. *)
Inductive search_output (float : Type) :=
| SearchMessage (s : string)
| SearchDocs (docs : list (gmap string (value float))).
Arguments SearchMessage {float} s.
Arguments SearchDocs {float} docs.

(** The index definition the notebook asks the reader to create on the
    database side (markdown cell of step 3). *)
Record index_definition := IndexDefinition {
  numDimensions : nat;
  idx_path : string;
  similarity : string;
  idx_type : string
}.

Definition vector_index_definition : index_definition :=
  {| numDimensions := 1536;
     idx_path := "embedding";
     similarity := "cosine";
     idx_type := "vector" |}.

Section Notebook.
Context {World float : Type}.
Variable env : services World float.

Abbreviation doc := (gmap string (value float)).
Abbreviation DataFrame := (frame float).
Abbreviation pipeline := (list (stage float)).
Abbreviation st := (state World float).

(** *** The monad *)

Definition M (A : Type) : Type := st -> result A * st.

Definition ret {A} (a : A) : M A := fun s => (Ret a, s).

Definition bind {A B} (m : M A) (k : A -> M B) : M B :=
  fun s =>
    match m s with
    | (Ret a, s') => k a s'
    | (Raise e, s') => (Raise e, s')
    end.

Definition raise {A} (e : exn) : M A := fun s => (Raise e, s).

Definition lift {A} (r : result A) : M A := fun s => (r, s).

Definition emit (ev : event float) : M unit :=
  fun s => (Ret tt, State (world s) (log s ++ [ev])).

(** [print(line)] *)
Definition print (line : string) : M unit := emit (Print line).

(** A remote call: recorded in the log, answered by the world. *)
Definition remote {A} (ev : event float) (call : World -> result A * World)
  : M A :=
  fun s =>
    let '(r, w) := call (world s) in
    (r, State w (log s ++ [ev])).

(** [try: body except <catches> as e: handler e] *)
Definition try_except {A} (body : M A) (catches : exn -> bool)
    (handler : exn -> M A) : M A :=
  fun s =>
    match body s with
    | (Raise e, s') => if catches e then handler e s' else (Raise e, s')
    | r => r
    end.

(** [l[i]] on a list *)
Definition subscript {A} (l : list A) (i : nat) : M A :=
  match l !! i with
  | Some x => ret x
  | None => raise (Exn IndexError "list index out of range")
  end.

(** [for x in xs: acc = body x acc] *)
Fixpoint for_each {A S} (xs : list A) (body : A -> S -> M S) (acc : S)
  : M S :=
  match xs with
  | [] => ret acc
  | x :: xs' => bind (body x acc) (for_each xs' body)
  end.

Notation "x <- m ;; k" := (bind m (fun x => k))
  (at level 100, m at next level, right associativity).
Notation "m ;;; k" := (bind m (fun _ => k))
  (at level 100, right associativity).

(** *** Step 1: the corpus loader *)

(** The body of the loop over the locations: [all_dataframes] is the list
    the loop appends to. *)
Definition fetch_into (headers : list (string * string))
    (parquet_file_url : string) (all_dataframes : list DataFrame)
  : M (list DataFrame) :=
  response <- remote (HttpGet parquet_file_url headers)
                (requests_get env parquet_file_url headers) ;;
  if status_code response =? 200 then
    df <- lift (read_parquet env (content response)) ;;
    ret (all_dataframes ++ [df])
  else
    print ("Failed to download Parquet file from "
           +:+ parquet_file_url +:+ ": "
           +:+ PyStr.of_int (status_code response)) ;;;
    ret all_dataframes.

(** A record brought to the columns [cols]: an entry that is missing
    becomes NaN. *)
Definition fill (cols : gset string) (r : doc) : doc :=
  r ∪ gset_to_gmap (VFloat (float_nan env)) cols.

(** [pd.concat(frames, ignore_index=True)]: the columns are the union of the
    columns of the frames; the records are those of the frames, in order,
    under a fresh index, with NaN where a frame lacks a column. *)
Definition pd_concat (frames : list DataFrame) : DataFrame :=
  let cols := ⋃ (columns <$> frames) in
  Frame cols (fill cols <$> concat (records <$> frames)).

Definition download_and_combine_parquet_files
    (parquet_file_urls : list string) (hf_token : string)
  : M (option DataFrame) :=
  let headers := [("Authorization", "Bearer " +:+ hf_token)] in
  all_dataframes <- for_each parquet_file_urls (fetch_into headers) [] ;;
  match all_dataframes with
  | _ :: _ =>
      let combined_df := pd_concat all_dataframes in
      ret (Some combined_df)
  | [] =>
      print "No dataframes to concatenate." ;;;
      ret None
  end.

(** *** The embedder *)

Definition get_embedding (text : string) : M (option (list float)) :=
  if negb (PyStr.truthy (PyStr.strip text)) then
    print "Attempted to get embedding for empty text." ;;;
    ret (Some [])
  else
    embeddings <- remote (VoEmbed text "voyage-large-2" "document")
                    (vo_embed env text "voyage-large-2" "document") ;;
    e0 <- subscript embeddings 0 ;;
    ret (Some e0).

(** *** Step 4: connecting and ingesting *)

Definition is_ConnectionFailure (e : exn) : bool :=
  match exn_cls e with ConnectionFailure => true | _ => false end.

Definition get_mongo_client (mongo_uri : option string)
  : M (option mongo_client) :=
  try_except
    (client <- remote (MongoConnect mongo_uri) (MongoClient env mongo_uri) ;;
     print "Connection to MongoDB successful" ;;;
     ret (Some client))
    is_ConnectionFailure
    (fun e =>
       print ("Connection failed: " +:+ exn_msg e) ;;;
       ret None).

Definition DB_NAME : string := "tech_news".
Definition COLLECTION_NAME : string := "hacker_noon_tech_news".

(** Truth value of [userdata.get('MONGO_URI')]. *)
Definition uri_truthy (mongo_uri : option string) : bool :=
  match mongo_uri with
  | Some s => PyStr.truthy s
  | None => false
  end.

(** The cell that connects: [mongo_client[DB_NAME]] and
    [db[COLLECTION_NAME]] follow the call of [get_mongo_client]
    unconditionally. *)
Definition connect_cell (mongo_uri : option string) : M collection :=
  (if negb (uri_truthy mongo_uri)
   then print "MONGO_URI not set in environment variables"
   else ret tt) ;;;
  mongo_client <- get_mongo_client mongo_uri ;;
  db <- match mongo_client with
        | Some c => ret (Database c DB_NAME)
        | None =>
            raise (Exn TypeError "'NoneType' object is not subscriptable")
        end ;;
  ret (Collection db COLLECTION_NAME).

(** [collection.delete_many({})] *)
Definition clear_cell (coll : collection) : M unit :=
  remote (DeleteMany coll) (delete_many env coll).

(** [collection.insert_many(combined_df_json)], where [combined_df_json] is
    [combined_df.to_dict(orient='records')], the list of the records of the
    table. *)
Definition ingest_cell (coll : collection) (combined_df_json : list doc)
  : M unit :=
  remote (InsertMany coll combined_df_json)
    (insert_many env coll combined_df_json).

(** *** Step 5: vector search *)

Definition search_pipeline (query_embedding : list float) : pipeline :=
  [ StVectorSearch
      {| vs_index := "vector_index";
         vs_queryVector := query_embedding;
         vs_path := "embedding";
         vs_numCandidates := 150;
         vs_limit := 5 |};
    StProject
      [ ("_id", Exclude);
        ("embedding", Exclude);
        ("score", Meta "vectorSearchScore") ] ].

Definition vector_search (user_query : string) (coll : collection)
  : M (search_output float) :=
  query_embedding <- get_embedding user_query ;;
  match query_embedding with
  | None => ret (SearchMessage "Invalid query or embedding generation failed.")
  | Some query_embedding =>
      let p := search_pipeline query_embedding in
      results <- remote (Aggregate coll p) (aggregate env coll p) ;;
      ret (SearchDocs results)
  end.

(** *** Step 6: the answer generator *)

(** [format(v)] inside an f-string. *)
Definition format_value (v : value float) : string :=
  match v with
  | VStr s => s
  | VFloat x => float_str env x
  | VVector v => "[" +:+ String.concat ", " (map (float_str env) v) +:+ "]"
  | VObjectId oid => oid
  | VNull => "None"
  end.

(** [f"{result.get(key, 'N/A')}"] *)
Definition get_or_NA (result : doc) (key : string) : string :=
  match result !! key with
  | Some v => format_value v
  | None => "N/A"
  end.

(** The line appended to [search_result] for one result. *)
Definition render_result (result : doc) : string :=
  "Title: " +:+ get_or_NA result "title" +:+ ", " +:+
  "Company Name: " +:+ get_or_NA result "companyName" +:+ ", " +:+
  "Company URL: " +:+ get_or_NA result "companyUrl" +:+ ", " +:+
  "Date Published: " +:+ get_or_NA result "published_at" +:+ ", " +:+
  "Article URL: " +:+ get_or_NA result "url" +:+ ", " +:+
  "Description: " +:+ get_or_NA result "description" +:+ ", " +:+
  String (ascii_of_nat 10) "".

(** The system prompt, as the source spells it. *)
Definition system_prompt : string :=
  "You are Venture Captital Tech Analyst with access to some tech company articles and information. You use the information you are given to provide advice.".

Definition user_content (query search_result : string) : string :=
  "Answer this user query: " +:+ query +:+
  " with the following context: " +:+ search_result.

Definition answer_request (query search_result : string) : messages_request :=
  {| req_model := "claude-3-opus-20240229";
     req_max_tokens := 1024;
     req_system := system_prompt;
     req_messages :=
       [ {| role := "user";
            msg_content := user_content query search_result |} ] |}.

(** [block.text] *)
Definition block_text (b : content_block) : M string :=
  match b with
  | TextBlock t => ret t
  | OtherBlock class_name =>
      raise (Exn AttributeError
               ("'" +:+ class_name +:+ "' object has no attribute 'text'"))
  end.

(** The loop [for result in get_knowledge: search_result += ...].  Iterating
    over a [str] yields its characters, which have no [get]. *)
Definition build_context (get_knowledge : search_output float) : M string :=
  match get_knowledge with
  | SearchDocs docs =>
      for_each docs
        (fun result search_result =>
           ret (search_result +:+ render_result result))
        ""
  | SearchMessage "" => ret ""
  | SearchMessage _ =>
      raise (Exn AttributeError "'str' object has no attribute 'get'")
  end.

Definition handle_user_query (query : string) (coll : collection)
  : M (string * string) :=
  get_knowledge <- vector_search query coll ;;
  search_result <- build_context get_knowledge ;;
  let req := answer_request query search_result in
  response <- remote (MessagesCreate req) (messages_create env req) ;;
  block <- subscript (resp_content response) 0 ;;
  text <- block_text block ;;
  ret (text, search_result).

(** The last cell: ask the question and print the answer.  The source
    writes a backslash followed by [n] in the second line, not a newline. *)
Definition query_cell (query : string) (coll : collection) : M unit :=
  out <- handle_user_query query coll ;;
  let '(response, source_information) := out in
  print ("Response: " +:+ response) ;;;
  print ("\nSource Information: \n" +:+ source_information).

(** The cells from the connection onwards, run in order: an exception in
    one cell stops the run. *)
Definition run_from_connect (mongo_uri : option string)
    (combined_df_json : list doc) (query : string) : M unit :=
  coll <- connect_cell mongo_uri ;;
  clear_cell coll ;;;
  ingest_cell coll combined_df_json ;;;
  query_cell query coll.

End Notebook.

(** ** The index store

    The database is a remote service; only the pipeline that [vector_search]
    sends to it is in the notebook.  The description of the store's
    VectorSearch operation (nearest records by the similarity metric,
    descending, cut at the limit, projected) is made executable here, and the
    service is related to it by [honours_index_store]. *)
Section IndexStore.
Context {float : Type}.

Abbreviation doc := (gmap string (value float)).

(** The similarity metric of the index (cosine) and the order on scores. *)
Variable metric : list float -> list float -> float.
Variable float_leb : float -> float -> bool.

(** Modelled from the spec: which records the index store can search, the
    store not being part of the notebook.  A record is searchable when the
    indexed path holds a vector of the dimensionality configured on the
    index. *)
Definition searchable (idx : index_definition) (path : string) (d : doc)
  : option (list float) :=
  match d !! path with
  | Some (VVector v) =>
      if decide (length v = numDimensions idx) then Some v else None
  | _ => None
  end.

(** [a] ranks before [b]: its score is at least that of [b]. *)
Definition ranks_before (a b : doc * float) : Prop :=
  Is_true (float_leb (snd b) (snd a)).

#[local] Instance ranks_before_dec a b : Decision (ranks_before a b).
Proof. unfold ranks_before. apply _. Defined.

(** Modelled from the spec: the [$vectorSearch] stage of the index store,
    which is not part of the notebook.  Of the records it is given, the store
    scores the first [numCandidates] searchable ones against the query
    vector, orders them by descending score, and keeps [limit] of them. *)
Definition vectorSearch_model (idx : index_definition)
    (s : vectorSearch_stage float) (input : list doc) : list (doc * float) :=
  let candidates :=
    take (vs_numCandidates s)
      (omap (fun d =>
               match searchable idx (vs_path s) d with
               | Some v => Some (d, metric (vs_queryVector s) v)
               | None => None
               end) input) in
  take (vs_limit s) (merge_sort ranks_before candidates).

(** Modelled from the spec: the [$project] stage of the index store.  A
    field mapped to 0 is dropped; a field mapped to the vectorSearchScore
    metadata is set to the score of the record, when it has one; every other
    field is kept. *)
Definition project_model (fields : list (string * projection))
    (d : doc) (score : option float) : doc :=
  foldl (fun acc '(k, p) =>
           match p with
           | Exclude => delete k acc
           | Meta name =>
               match score with
               | Some x =>
                   if decide (name = "vectorSearchScore")
                   then <[k := VFloat x]> acc else acc
               | None => acc
               end
           end) d fields.

(** Modelled from the spec: one stage of a pipeline run by the index store,
    on records that may carry a score. *)
Definition run_stage (idx : index_definition) (s : stage float)
    (input : list (doc * option float)) : list (doc * option float) :=
  match s with
  | StVectorSearch vs =>
      (fun '(d, x) => (d, Some x)) <$>
        vectorSearch_model idx vs (fst <$> input)
  | StProject fields =>
      (fun '(d, x) => (project_model fields d x, x)) <$> input
  end.

(** Modelled from the spec: an aggregation pipeline run by the index store
    over the records [records] of a collection. *)
Definition run_pipeline (idx : index_definition) (records : list doc)
    (p : list (stage float)) : list doc :=
  fst <$>
    foldl (fun acc s => run_stage idx s acc)
      ((fun d => (d, None)) <$> records) p.

(** What the [$project] stage of the notebook's pipeline makes of a record
    with score [x]. *)
Definition projected (d : doc) (x : float) : doc :=
  <["score" := VFloat x]> (delete "embedding" (delete "_id" d)).

(** The similarity score a returned record carries. *)
Definition doc_score (d : doc) : option float :=
  match d !! "score" with
  | Some (VFloat x) => Some x
  | _ => None
  end.

(** Both records carry a score and the first one's is at least the
    second's. *)
Definition score_ge (a b : doc) : Prop :=
  match doc_score a, doc_score b with
  | Some x, Some y => Is_true (float_leb y x)
  | _, _ => False
  end.

(** The service honours the store's description: whenever [aggregate]
    returns, it returns what the pipeline yields on some arrangement of
    records that the collection holds.  [stored] reads the records of a
    collection off the world. *)
Definition honours_index_store {World : Type} (env : services World float)
    (stored : World -> collection -> list doc) : Prop :=
  forall coll p w docs w',
    aggregate env coll p w = (Ret docs, w') ->
    exists records,
      records ⊆ stored w coll /\
      docs = run_pipeline vector_index_definition records p.

End IndexStore.

(** ** A small concrete world

    Scores are integers, the world is the list of records the collection
    holds, the dataset host serves two files, and the language model echoes
    the user message.  The instances below are used to run the embedding. *)
Module Demo.

Abbreviation record := (gmap string (value Z)).

Definition dot (u v : list Z) : Z :=
  foldr Z.add 0 (zip_with Z.mul u v).

Definition article (title : string) (k : Z) : record :=
  <["_id" := VObjectId title]>
  (<["title" := VStr title]>
  (<["companyName" := VStr "10Clouds"]>
  (<["embedding" := VVector (replicate 1536 k)]> ∅))).

Definition corpus : list record :=
  [ article "a1" 1; article "a2" 2; article "a3" 3; article "a4" 4;
    article "a5" 5; article "a6" 6; article "a7" 7 ].

Definition file_a : list record := [ article "a1" 1; article "a2" 2 ].
Definition file_b : list record := [ article "a3" 3 ].

Definition host (url : string) : response :=
  if decide (url = "https://hub/a.parquet") then Response 200 "A"
  else if decide (url = "https://hub/b.parquet") then Response 200 "B"
  else Response 404 "".

Definition article_columns : gset string :=
  list_to_set ["_id"; "title"; "companyName"; "embedding"].

Definition parse (body : string) : result (frame Z) :=
  if decide (body = "A") then Ret (Frame article_columns file_a)
  else if decide (body = "B") then Ret (Frame article_columns file_b)
  else Raise (Exn (OtherError "ArrowInvalid") "not a parquet file").

Definition connect (uri : option string) : result mongo_client :=
  match uri with
  | Some _ => Ret (MongoClientHandle uri)
  | None => Raise (Exn ConnectionFailure "localhost:27017: connection refused")
  end.

Definition reply (req : messages_request) : message :=
  Message (map (fun m => TextBlock (msg_content m)) (req_messages req)).

Definition env : services (list record) Z :=
  {| requests_get := fun url _ w => (Ret (host url), w);
     read_parquet := parse;
     vo_embed := fun _ _ _ w => (Ret [replicate 1536 1], w);
     MongoClient := fun uri w => (connect uri, w);
     delete_many := fun _ _ => (Ret tt, []);
     insert_many := fun _ docs w => (Ret tt, w ++ docs);
     aggregate := fun _ p w =>
       (Ret (run_pipeline dot Z.leb vector_index_definition w p), w);
     messages_create := fun req w => (Ret (reply req), w);
     float_str := PyStr.of_int;
     float_nan := -1 |}.

Definition stored (w : list record) (_ : collection) : list record := w.

Definition news : collection :=
  Collection
    (Database (MongoClientHandle (Some "mongodb://demo")) "tech_news")
    "hacker_noon_tech_news".

Definition start : state (list record) Z := State corpus [].
Definition empty_start : state (list record) Z := State [] [].

(** The answer of the demonstration store to the query "tech stocks". *)
Definition answer : list record :=
  match fst (vector_search env "tech stocks" news start) with
  | Ret (SearchDocs docs) => docs
  | _ => []
  end.

Definition urls : list string :=
  [ "https://hub/a.parquet"; "https://hub/gone.parquet";
    "https://hub/b.parquet" ].

Definition dead_urls : list string :=
  [ "https://hub/gone.parquet"; "https://hub/lost.parquet" ].

End Demo.

(** ** Contracts of the remote services *)

(** The embedding service answers every request with one vector per input,
    of dimension [dim]. *)
Definition honours_embedding_contract {World float : Type}
    (env : services World float) (dim : nat) : Prop :=
  forall text model input_type w,
    exists v w',
      vo_embed env text model input_type w = (Ret [v], w') /\ length v = dim.

(** ** The loader seen from outside

    The answers the dataset host gives when the locations are requested one
    after the other, and what the loader is to make of them. *)
Section LoaderView.
Context {World float : Type}.
Variable env : services World float.

Abbreviation doc := (gmap string (value float)).

Fixpoint answers (headers : list (string * string)) (urls : list string)
    (w : World) : list (string * result response) * World :=
  match urls with
  | [] => ([], w)
  | url :: rest =>
      let '(a, w1) := requests_get env url headers w in
      let '(l, w2) := answers headers rest w1 in
      ((url, a) :: l, w2)
  end.

(** The request was answered, and a 200 answer holds a readable file. *)
Definition answered (ua : string * result response) : Prop :=
  exists r,
    snd ua = Ret r /\
    (status_code r = 200 -> exists df, read_parquet env (content r) = Ret df).

(** The request was answered with a status other than 200. *)
Definition refused (ua : string * result response) : Prop :=
  exists r, snd ua = Ret r /\ status_code r <> 200.

(** The table of a successfully fetched file. *)
Definition fetched_table (ua : string * result response)
  : option (frame float) :=
  match snd ua with
  | Ret r =>
      if status_code r =? 200 then
        match read_parquet env (content r) with
        | Ret df => Some df
        | Raise _ => None
        end
      else None
  | Raise _ => None
  end.

(** The line printed for a location that answered with status [code]. *)
Definition failure_line (url : string) (code : Z) : string :=
  "Failed to download Parquet file from " +:+ url +:+ ": "
  +:+ PyStr.of_int code.

(** The events of one request: the request itself, then the failure line
    when the status is not 200. *)
Definition fetch_events (headers : list (string * string))
    (ua : string * result response) : list (event float) :=
  HttpGet (fst ua) headers ::
  match snd ua with
  | Ret r =>
      if status_code r =? 200 then []
      else [Print (failure_line (fst ua) (status_code r))]
  | Raise _ => []
  end.

(** The rows of the loader's result; [None] has none. *)
Definition rows (res : option (frame float)) : list doc :=
  match res with
  | Some df => records df
  | None => []
  end.

End LoaderView.

(** ** The answer generator seen from outside *)
Section AnswerView.
Context {World float : Type}.
Variable env : services World float.

(** The context block of a list of results: their lines, one after the
    other. *)
Fixpoint context_block (results : list (gmap string (value float)))
  : string :=
  match results with
  | [] => ""
  | result :: rest => render_result env result +:+ context_block rest
  end.

(** The requests to the language model among some events. *)
Definition lm_requests (evs : list (event float)) : list messages_request :=
  omap (fun ev =>
          match ev with
          | MessagesCreate req => Some req
          | _ => None
          end) evs.

(** The database operations among some events. *)
Definition db_operations (evs : list (event float)) : list (event float) :=
  omap (fun ev =>
          match ev with
          | DeleteMany _ | InsertMany _ _ | Aggregate _ _ => Some ev
          | _ => None
          end) evs.

End AnswerView.

(** ** Step 1, continued: the cells that prepare the table *)
Section Preparation.
Context {World float : Type}.
Variable env : services World float.

Abbreviation doc := (gmap string (value float)).
Abbreviation DataFrame := (frame float).
Abbreviation Run := (@M World float).

Notation "x <- m ;; k" := (bind m (fun x => k))
  (at level 100, m at next level, right associativity).

(** The list of locations of the loading cell; the other five are commented
    out in the source. *)
Definition parquet_files : list string :=
  [ "https://huggingface.co/api/datasets/AIatMongoDB/tech-news-embeddings/parquet/default/train/0000.parquet" ].

(** [combined_df = download_and_combine_parquet_files(parquet_files, hf_token)] *)
Definition load_cell (hf_token : string) : Run (option DataFrame) :=
  download_and_combine_parquet_files env parquet_files hf_token.

(** [c in df.columns] *)
Definition has_column (c : string) (df : DataFrame) : bool :=
  bool_decide (c ∈ columns df).

Definition KeyError (msg : string) : exn := Exn (OtherError "KeyError") msg.

(** [combined_df.drop(columns=[c])]; the loader may have returned [None]. *)
Definition drop_column (c : string) (combined_df : option DataFrame)
  : Run DataFrame :=
  match combined_df with
  | None =>
      raise (Exn AttributeError "'NoneType' object has no attribute 'drop'")
  | Some df =>
      if has_column c df
      then ret (Frame (columns df ∖ {[c]}) (delete c <$> records df))
      else raise (KeyError ("['" +:+ c +:+ "'] not found in axis"))
  end.

(** The cell that removes the [_id] column, then the [embedding] column of
    the dataset. *)
Definition drop_columns_cell (combined_df : option DataFrame)
  : Run DataFrame :=
  combined_df <- drop_column "_id" combined_df ;;
  drop_column "embedding" (Some combined_df).

Definition max_documents : nat := 500.

(** [if len(combined_df) > max_documents: combined_df = combined_df[:max_documents]] *)
Definition cap_cell (combined_df : DataFrame) : DataFrame :=
  if (max_documents <? length (records combined_df))%nat
  then Frame (columns combined_df) (take max_documents (records combined_df))
  else combined_df.

(** The entry of a record in a column; NaN when it is missing. *)
Definition entry (c : string) (r : doc) : value float :=
  match r !! c with
  | Some v => v
  | None => VFloat (float_nan env)
  end.

(** [combined_df[c]] *)
Definition column (c : string) (df : DataFrame) : Run (list (value float)) :=
  if has_column c df then ret (entry c <$> records df)
  else raise (KeyError c).

(** [type(v).__name__] for an entry of a table. *)
Definition type_name (v : value float) : string :=
  match v with
  | VStr _ => "str"
  | VFloat _ => "float"
  | VVector _ => "numpy.ndarray"
  | VObjectId _ => "ObjectId"
  | VNull => "NoneType"
  end.

(** [get_embedding] called on an entry of a column: only a [str] has
    [strip]. *)
Definition get_embedding_of (v : value float) : Run (option (list float)) :=
  match v with
  | VStr text => get_embedding env text
  | _ =>
      raise (Exn AttributeError
               ("'" +:+ type_name v +:+ "' object has no attribute 'strip'"))
  end.

(** [series.apply(get_embedding)]: one call per element, in order. *)
Definition apply_get_embedding (series : list (value float))
  : Run (list (option (list float))) :=
  for_each series
    (fun v embeddings =>
       e <- get_embedding_of v ;;
       ret (embeddings ++ [e]))
    [].

(** The value stored in the [embedding] column for what [get_embedding]
    returned. *)
Definition embedding_value (e : option (list float)) : value float :=
  match e with
  | Some v => VVector v
  | None => VNull
  end.

(** [combined_df["embedding"] = combined_df["description"].apply(get_embedding)] *)
Definition embed_cell (combined_df : DataFrame) : Run DataFrame :=
  descriptions <- column "description" combined_df ;;
  embeddings <- apply_get_embedding descriptions ;;
  ret (Frame (columns combined_df ∪ {["embedding"]})
         (zip_with (fun (r : doc) e => <["embedding" := embedding_value e]> r)
            (records combined_df) embeddings)).

(** The cells of step 1, run in order. *)
Definition preparation_cells (hf_token : string) : Run DataFrame :=
  combined_df <- load_cell hf_token ;;
  combined_df <- drop_columns_cell combined_df ;;
  embed_cell (cap_cell combined_df).

(** [combined_df.to_dict(orient='records')]: one dictionary per record,
    with an entry for every column. *)
Definition to_dict_records (combined_df : DataFrame) : list doc :=
  fill env (columns combined_df) <$> records combined_df.

(** The whole notebook, run in order. *)
Definition run_all (hf_token : string) (mongo_uri : option string)
    (query : string) : Run unit :=
  combined_df <- preparation_cells hf_token ;;
  run_from_connect env mongo_uri (to_dict_records combined_df) query.

(** The rows a run of the loader returned; none when it raised. *)
Definition loaded_rows (r : result (option DataFrame)) : list doc :=
  match r with
  | Ret res => rows res
  | Raise _ => []
  end.

(** The columns a run of the loader returned. *)
Definition loaded_columns (r : result (option DataFrame)) : gset string :=
  match r with
  | Ret (Some df) => columns df
  | _ => ∅
  end.

(** The requests to the embedding service among some events. *)
Definition embed_requests (evs : list (event float))
  : list (string * string * string) :=
  omap (fun ev =>
          match ev with
          | VoEmbed text model input_type => Some (text, model, input_type)
          | _ => None
          end) evs.

(** The requests to the dataset host among some events. *)
Definition http_requests (evs : list (event float))
  : list (string * list (string * string)) :=
  omap (fun ev =>
          match ev with
          | HttpGet url headers => Some (url, headers)
          | _ => None
          end) evs.

(** [embedded_from s rs rs' s']: starting in state [s], [get_embedding] is
    called on the description of each record of [rs] in turn, each call
    starting where the one before ended; every description is a string and
    every call returns a vector; [rs'] holds the records of [rs], each with
    the vector returned for it in [embedding]; the last call ends in
    [s']. *)
Inductive embedded_from :
  state World float -> list doc -> list doc -> state World float -> Prop :=
| embedded_nil s : embedded_from s [] [] s
| embedded_cons s s1 s2 r rs rs' text vec :
    r !! "description" = Some (VStr text) ->
    get_embedding env text s = (Ret (Some vec), s1) ->
    embedded_from s1 rs rs' s2 ->
    embedded_from s (r :: rs) (<["embedding" := VVector vec]> r :: rs') s2.

End Preparation.

(** ** Two more concrete worlds *)

(** A world in which one file of the dataset host is unreadable and the
    embedding service answers with no vector. *)
Module Faulty.

Definition host (url : string) : response :=
  if decide (url = "https://hub/broken.parquet") then Response 200 "junk"
  else Demo.host url.

Definition env : services (list Demo.record) Z :=
  {| requests_get := fun url _ w => (Ret (host url), w);
     read_parquet := Demo.parse;
     vo_embed := fun _ _ _ w => (Ret [], w);
     MongoClient := fun uri w => (Demo.connect uri, w);
     delete_many := fun _ _ => (Ret tt, []);
     insert_many := fun _ docs w => (Ret tt, w ++ docs);
     aggregate := fun _ p w =>
       (Ret (run_pipeline Demo.dot Z.leb vector_index_definition w p), w);
     messages_create := fun req w => (Ret (Demo.reply req), w);
     float_str := PyStr.of_int;
     float_nan := -1 |}.

End Faulty.

(** A world in which the dataset host serves one file of three records,
    the second with a blank description. *)
Module Sample.

Definition row (id title description : string) : Demo.record :=
  <["_id" := VObjectId id]>
  (<["title" := VStr title]>
  (<["description" := VStr description]>
  (<["embedding" := VVector [0; 0; 0]]> ∅))).

Definition dataset : frame Z :=
  Frame (list_to_set ["_id"; "title"; "description"; "embedding"])
    [ row "65a1" "Chips" "A new chip plant opens.";
      row "65a2" "Untitled" "   ";
      row "65a3" "Clouds" "Cloud prices fall." ].

Definition env : services (list Demo.record) Z :=
  {| requests_get := fun _ _ w => (Ret (Response 200 "S"), w);
     read_parquet := fun _ => Ret dataset;
     vo_embed := fun _ _ _ w => (Ret [replicate 1536 1], w);
     MongoClient := fun uri w => (Demo.connect uri, w);
     delete_many := fun _ _ => (Ret tt, []);
     insert_many := fun _ docs w => (Ret tt, w ++ docs);
     aggregate := fun _ p w =>
       (Ret (run_pipeline Demo.dot Z.leb vector_index_definition w p), w);
     messages_create := fun req w => (Ret (Demo.reply req), w);
     float_str := PyStr.of_int;
     float_nan := -1 |}.

(** The table of the embedding cell run on the dataset. *)
Definition embedded : frame Z :=
  match fst (embed_cell env dataset Demo.empty_start) with
  | Ret df => df
  | Raise _ => Frame ∅ []
  end.

(** The table of the cells of step 1. *)
Definition prepared : frame Z :=
  match fst (preparation_cells env "hf_demo" Demo.empty_start) with
  | Ret df => df
  | Raise _ => Frame ∅ []
  end.

End Sample.

(** A world in which the dataset host serves two files with different
    columns: the first has no [companyName], the second no [title]. *)
Module Ragged.

Definition first : frame Z :=
  Frame (list_to_set ["title"; "description"])
    [ <["title" := VStr "Chips"]> (<["description" := VStr "A plant."]> ∅) ].

Definition second : frame Z :=
  Frame (list_to_set ["companyName"; "description"])
    [ <["companyName" := VStr "10Clouds"]>
      (<["description" := VStr "A cloud."]> ∅) ].

Definition env : services (list Demo.record) Z :=
  {| requests_get := fun url _ w =>
       (Ret (Response 200 (if decide (url = "https://hub/1.parquet")
                           then "1" else "2")), w);
     read_parquet := fun body =>
       Ret (if decide (body = "1") then first else second);
     vo_embed := fun _ _ _ w => (Ret [replicate 1536 1], w);
     MongoClient := fun uri w => (Demo.connect uri, w);
     delete_many := fun _ _ => (Ret tt, []);
     insert_many := fun _ docs w => (Ret tt, w ++ docs);
     aggregate := fun _ p w =>
       (Ret (run_pipeline Demo.dot Z.leb vector_index_definition w p), w);
     messages_create := fun req w => (Ret (Demo.reply req), w);
     float_str := PyStr.of_int;
     float_nan := -1 |}.

End Ragged.

(** * Properties *)

(** ** Strings *)

Lemma lstrip_all_space s : PyStr.all_space s = true -> PyStr.lstrip s = "".
Proof.
  induction s as [|c s IH]; simpl; [done|].
  intros [Hc Hs]%andb_prop. rewrite Hc. auto.
Qed.

Lemma lstrip_not_all_space s :
  PyStr.all_space s = false ->
  exists c r, PyStr.lstrip s = String c r /\ PyStr.isspace c = false.
Proof.
  induction s as [|c s IH]; simpl; [done|].
  destruct (PyStr.isspace c) eqn:Hc; simpl; eauto.
Qed.

Lemma rstrip_head_not_space c r :
  PyStr.isspace c = false -> PyStr.rstrip (String c r) <> "".
Proof.
  intros Hc. simpl. rewrite Hc. by destruct (PyStr.rstrip r).
Qed.

(** [not text.strip()] holds exactly of the strings made of whitespace. *)
Lemma strip_truthy s :
  PyStr.truthy (PyStr.strip s) = negb (PyStr.all_space s).
Proof.
  unfold PyStr.strip. destruct (PyStr.all_space s) eqn:Hs.
  - by rewrite lstrip_all_space.
  - destruct (lstrip_not_all_space s Hs) as (c & r & -> & Hc).
    pose proof (rstrip_head_not_space c r Hc).
    by destruct (PyStr.rstrip (String c r)).
Qed.

Section NotebookFacts.
Context {World float : Type}.
Variable env : services World float.

Abbreviation doc := (gmap string (value float)).

(** ** The embedder *)

Lemma get_embedding_blank_run text s :
  PyStr.all_space text = true ->
  get_embedding env text s =
    (Ret (Some []),
     State (world s)
       (log s ++ [Print "Attempted to get embedding for empty text."])).
Proof.
  intros Hb. unfold get_embedding. rewrite strip_truthy, Hb. reflexivity.
Qed.

Lemma get_embedding_nonblank_run text s :
  PyStr.all_space text = false ->
  get_embedding env text s =
    let '(r, w) := vo_embed env text "voyage-large-2" "document" (world s) in
    let s' := State w (log s ++ [VoEmbed text "voyage-large-2" "document"]) in
    match r with
    | Ret (v :: _) => (Ret (Some v), s')
    | Ret [] => (Raise (Exn IndexError "list index out of range"), s')
    | Raise e => (Raise e, s')
    end.
Proof.
  intros Hb. unfold get_embedding. rewrite strip_truthy, Hb. simpl.
  unfold bind, remote.
  destruct (vo_embed env text _ _ (world s)) as [[[|v l]|e] w]; reflexivity.
Qed.

(** C2. For a text that is empty or made only of whitespace, [get_embedding]
    returns the empty vector, does not raise, and issues no request to the
    embedding service: the only event is the printed line and the world is
    left as it was. *)
Theorem get_embedding_blank text s :
  PyStr.all_space text = true ->
  get_embedding env text s =
    (Ret (Some []),
     State (world s)
       (log s ++ [Print "Attempted to get embedding for empty text."])).
Proof. apply get_embedding_blank_run. Qed.

(** C5. When the embedding service honours its contract for the dimension
    configured on the index, [get_embedding] returns, for every text that is
    not blank, a vector of that dimension (1536). *)
Theorem get_embedding_dimension text s :
  honours_embedding_contract env (numDimensions vector_index_definition) ->
  PyStr.all_space text = false ->
  exists v s',
    get_embedding env text s = (Ret (Some v), s') /\
    length v = 1536%nat.
Proof.
  intros Hc Hb. rewrite (get_embedding_nonblank_run _ _ Hb).
  destruct (Hc text "voyage-large-2" "document" (world s))
    as (v & w' & -> & Hlen).
  eauto.
Qed.

End NotebookFacts.

(** The blank text of three whitespace characters. *)
Lemma get_embedding_blank_witness :
  get_embedding Demo.env "  	" Demo.start =
    (Ret (Some []),
     State Demo.corpus [Print "Attempted to get embedding for empty text."]).
Proof. apply (get_embedding_blank Demo.env "  	" Demo.start). reflexivity. Defined.

Lemma demo_embedding_contract :
  honours_embedding_contract Demo.env 1536.
Proof.
  intros text model input_type w. exists (replicate 1536 1), w.
  split; [reflexivity | apply length_replicate].
Qed.

Lemma get_embedding_dimension_witness :
  exists v s',
    get_embedding Demo.env "tech stocks" Demo.start = (Ret (Some v), s') /\
    length v = 1536%nat.
Proof.
  apply (get_embedding_dimension Demo.env "tech stocks" Demo.start).
  - exact demo_embedding_contract.
  - reflexivity.
Defined.

(** ** Vector search *)

Section VectorSearchFacts.
Context {World float : Type}.
Variable env : services World float.

Abbreviation doc := (gmap string (value float)).

(** One run of [vector_search], step by step. *)
Lemma vector_search_run q coll s :
  vector_search env q coll s =
    match get_embedding env q s with
    | (Ret (Some qe), s1) =>
        let p := search_pipeline qe in
        let '(r, w) := aggregate env coll p (world s1) in
        let s2 := State w (log s1 ++ [Aggregate coll p]) in
        match r with
        | Ret docs => (Ret (SearchDocs docs), s2)
        | Raise e => (Raise e, s2)
        end
    | (Ret None, s1) =>
        (Ret (SearchMessage "Invalid query or embedding generation failed."),
         s1)
    | (Raise e, s1) => (Raise e, s1)
    end.
Proof.
  unfold vector_search, bind.
  destruct (get_embedding env q s) as [[[qe|]|e] s1]; try reflexivity.
  unfold remote.
  destruct (aggregate env coll _ (world s1)) as [[docs|e] w]; reflexivity.
Qed.

Lemma get_embedding_not_None text s :
  fst (get_embedding env text s) <> Ret None.
Proof.
  destruct (PyStr.all_space text) eqn:Hb.
  - by rewrite get_embedding_blank_run.
  - rewrite get_embedding_nonblank_run by done.
    destruct (vo_embed env text _ _ (world s)) as [[[|v l]|e] w]; done.
Qed.

(** A returned list of documents is what the service answered to the
    pipeline with limit 5, sent in the world the embedder left behind. *)
Lemma vector_search_docs q coll s docs s' :
  vector_search env q coll s = (Ret (SearchDocs docs), s') ->
  exists qe s1 w,
    get_embedding env q s = (Ret (Some qe), s1) /\
    aggregate env coll (search_pipeline qe) (world s1) = (Ret docs, w).
Proof.
  rewrite vector_search_run.
  destruct (get_embedding env q s) as [[[qe|]|e] s1]; [|done|done].
  simpl. destruct (aggregate env coll _ (world s1)) as [[ds|e] w] eqn:Ha;
    [|done].
  intros [= <- <-]. eauto.
Qed.

(** C10. [get_embedding] never returns [None]; hence [vector_search] never
    returns its embedding-failure message; and for a blank query the search
    pipeline is sent to the database all the same, its [$vectorSearch] stage
    holding the empty list as query vector. *)
Theorem vector_search_guard_unreachable :
  (forall text s, fst (get_embedding env text s) <> Ret None) /\
  (forall q coll s m,
     fst (vector_search env q coll s) <> Ret (SearchMessage m)) /\
  (forall q coll s,
     PyStr.all_space q = true ->
     let sent : list (stage float) :=
       [ StVectorSearch
           {| vs_index := "vector_index";
              vs_queryVector := [];
              vs_path := "embedding";
              vs_numCandidates := 150;
              vs_limit := 5 |};
         StProject
           [ ("_id", Exclude);
             ("embedding", Exclude);
             ("score", Meta "vectorSearchScore") ] ] in
     exists r w,
       aggregate env coll sent (world s) = (r, w) /\
       vector_search env q coll s =
         (match r with
          | Ret docs => Ret (SearchDocs docs)
          | Raise e => Raise e
          end,
          State w
            (log s ++
             [Print "Attempted to get embedding for empty text.";
              Aggregate coll sent]))).
Proof.
  split; [apply get_embedding_not_None|]. split.
  - intros q coll s m. rewrite vector_search_run.
    pose proof (get_embedding_not_None q s) as Hn.
    destruct (get_embedding env q s) as [[[qe|]|e] s1]; [|done|done].
    simpl. by destruct (aggregate env coll _ (world s1)) as [[ds|e] w].
  - intros q coll s Hb sent. rewrite vector_search_run.
    rewrite get_embedding_blank_run by done. simpl.
    change (search_pipeline []) with sent.
    destruct (aggregate env coll _ (world s)) as [r w].
    exists r, w. split; [done|].
    rewrite <- app_assoc. by destruct r.
Qed.

End VectorSearchFacts.

(** A query of three spaces against the demonstration world. *)
Lemma vector_search_guard_unreachable_witness :
  let sent : list (stage Z) :=
    [ StVectorSearch
        {| vs_index := "vector_index";
           vs_queryVector := [];
           vs_path := "embedding";
           vs_numCandidates := 150;
           vs_limit := 5 |};
      StProject
        [ ("_id", Exclude);
          ("embedding", Exclude);
          ("score", Meta "vectorSearchScore") ] ] in
  exists r w,
    aggregate Demo.env Demo.news sent Demo.corpus = (r, w) /\
    vector_search Demo.env "   " Demo.news Demo.start =
      (match r with
       | Ret docs => Ret (SearchDocs docs)
       | Raise e => Raise e
       end,
       State w
         [Print "Attempted to get embedding for empty text.";
          Aggregate Demo.news sent]).
Proof.
  apply (proj2 (proj2 (vector_search_guard_unreachable Demo.env))
           "   " Demo.news Demo.start).
  reflexivity.
Defined.

(** ** The index store's answer to the search pipeline *)

Section IndexStoreFacts.
Context {World float : Type}.
Variable env : services World float.
Variable metric : list float -> list float -> float.
Variable float_leb : float -> float -> bool.
Variable stored : World -> collection -> list (gmap string (value float)).

Abbreviation doc := (gmap string (value float)).
Abbreviation ranks := (ranks_before float_leb).

Lemma Sorted_take {A} (R : relation A) n l :
  Sorted R l -> Sorted R (take n l).
Proof.
  intros Hs. revert n. induction Hs as [|x l Hs IH Hd]; intros [|n]; simpl;
    try constructor; auto.
  destruct Hd; destruct n; simpl; constructor; auto.
Qed.

Lemma run_search_pipeline idx records qe :
  run_pipeline metric float_leb idx records (search_pipeline qe) =
    (fun '(d, x) => projected d x) <$>
      vectorSearch_model metric float_leb idx
        {| vs_index := "vector_index"; vs_queryVector := qe;
           vs_path := "embedding"; vs_numCandidates := 150;
           vs_limit := 5 |} records.
Proof.
  unfold run_pipeline, search_pipeline. simpl.
  rewrite <- !list_fmap_compose.
  rewrite (list_fmap_ext (fst ∘ _) id records) by done.
  rewrite list_fmap_id.
  apply list_fmap_ext. by intros _ [d x] _.
Qed.

Lemma projected_score (d : doc) (x : float) :
  doc_score (projected d x) = Some x.
Proof. unfold doc_score, projected. by rewrite lookup_insert_eq. Qed.

(** With a total order on scores, the store's answer is sorted by
    non-increasing score. *)
Lemma run_search_pipeline_sorted idx records qe :
  (forall x y, float_leb x y = true \/ float_leb y x = true) ->
  Sorted (score_ge float_leb)
    (run_pipeline metric float_leb idx records (search_pipeline qe)).
Proof.
  intros Htot. rewrite run_search_pipeline. unfold vectorSearch_model.
  apply (Sorted_fmap _ ranks (score_ge float_leb)).
  - intros [d x] [d' x'] Hr. unfold score_ge.
    by rewrite !projected_score.
  - apply Sorted_take, Sorted_merge_sort.
    intros [d x] [d' x']. unfold ranks_before. simpl.
    destruct (Htot x x') as [->| ->]; auto.
Qed.

(** The answer holds at most [limit] records. *)
Lemma run_search_pipeline_length idx records qe :
  (length (run_pipeline metric float_leb idx records (search_pipeline qe))
   <= 5)%nat.
Proof.
  rewrite run_search_pipeline, length_fmap. unfold vectorSearch_model.
  rewrite length_take. apply Nat.le_min_l.
Qed.

(** Every record of the answer is the projection of a searchable record
    among those given, scored against the query vector. *)
Lemma run_search_pipeline_elem idx records qe d' :
  d' ∈ run_pipeline metric float_leb idx records (search_pipeline qe) ->
  exists d v,
    d ∈ records /\
    searchable idx "embedding" d = Some v /\
    d' = projected d (metric qe v).
Proof.
  rewrite run_search_pipeline. unfold vectorSearch_model. simpl.
  intros ([d x] & -> & Hin)%list_elem_of_fmap.
  apply subseteq_take in Hin.
  rewrite merge_sort_Permutation in Hin.
  apply subseteq_take in Hin.
  apply list_elem_of_omap in Hin as (d0 & Hd0 & Hs).
  destruct (searchable idx "embedding" d0) as [v|] eqn:Hv; [|done].
  injection Hs as <- <-. eauto.
Qed.

End IndexStoreFacts.

(** ** What [vector_search] returns *)

Section SearchResults.
Context {World float : Type}.
Variable env : services World float.
Variable metric : list float -> list float -> float.
Variable float_leb : float -> float -> bool.
Variable stored : World -> collection -> list (gmap string (value float)).

Abbreviation doc := (gmap string (value float)).

(** C1. Against a store that honours the description of VectorSearch, with
    a total order on scores, [vector_search] returns for every query a list
    of at most 5 records (the limit written in the pipeline), sorted by
    non-increasing similarity score.  It never returns anything else than a
    list of records, and it raises only when the embedder or the store
    raises. *)
Theorem vector_search_limit_sorted q coll s :
  (forall x y, float_leb x y = true \/ float_leb y x = true) ->
  honours_index_store metric float_leb env stored ->
  match vector_search env q coll s with
  | (Ret (SearchDocs docs), _) =>
      (length docs <= 5)%nat /\ Sorted (score_ge float_leb) docs
  | (Ret (SearchMessage _), _) => False
  | (Raise e, _) =>
      fst (get_embedding env q s) = Raise e \/
      exists qe s1,
        get_embedding env q s = (Ret (Some qe), s1) /\
        fst (aggregate env coll (search_pipeline qe) (world s1)) = Raise e
  end.
Proof.
  intros Htot Hstore.
  destruct (vector_search env q coll s) as [[[m|docs]|e] s'] eqn:Hrun.
  - pose proof (get_embedding_not_None env q s) as Hn.
    rewrite vector_search_run in Hrun.
    destruct (get_embedding env q s) as [[[qe|]|e] s1]; [|done|done].
    simpl in Hrun.
    by destruct (aggregate env coll _ (world s1)) as [[ds|e] w].
  - apply vector_search_docs in Hrun as (qe & s1 & w & _ & Hagg).
    apply Hstore in Hagg as (records & _ & ->).
    split.
    + apply run_search_pipeline_length.
    + by apply run_search_pipeline_sorted.
  - rewrite vector_search_run in Hrun.
    destruct (get_embedding env q s) as [[[qe|]|e0] s1]; [|done|].
    + right. exists qe, s1. split; [done|]. simpl in Hrun.
      destruct (aggregate env coll _ (world s1)) as [[ds|e1] w]; [done|].
      by injection Hrun as -> _.
    + left. by injection Hrun as -> _.
Qed.

(** C6. Against a store that honours the description of VectorSearch, every
    record that [vector_search] returns has no [_id] and no [embedding]
    field, carries in [score] the similarity of a stored record to the query
    vector, and agrees with that stored record on every other field. *)
Theorem vector_search_projection q coll s docs s' :
  honours_index_store metric float_leb env stored ->
  vector_search env q coll s = (Ret (SearchDocs docs), s') ->
  forall d' : doc,
    d' ∈ docs ->
    d' !! "_id" = None /\
    d' !! "embedding" = None /\
    exists (d : doc) qe v,
      fst (get_embedding env q s) = Ret (Some qe) /\
      d ∈ stored (world (snd (get_embedding env q s))) coll /\
      d !! "embedding" = Some (VVector v) /\
      d' !! "score" = Some (VFloat (metric qe v)) /\
      forall k,
        k <> "_id" -> k <> "embedding" -> k <> "score" -> d' !! k = d !! k.
Proof.
  intros Hstore Hrun d' Hd'.
  apply vector_search_docs in Hrun as (qe & s1 & w & Hemb & Hagg).
  apply Hstore in Hagg as (records & Hsub & ->).
  apply run_search_pipeline_elem in Hd' as (d & v & Hd & Hv & ->).
  unfold projected. split; [|split].
  - rewrite lookup_insert_ne by done. rewrite lookup_delete_ne by done.
    apply lookup_delete_eq.
  - rewrite lookup_insert_ne by done. apply lookup_delete_eq.
  - exists d, qe, v. rewrite Hemb. simpl.
    split; [done|]. split; [by apply Hsub|]. split.
    + unfold searchable in Hv.
      destruct (d !! "embedding") as [[]|]; try done.
      by case_decide; simplify_eq.
    + split; [apply lookup_insert_eq|].
      intros k H1 H2 H3.
      rewrite lookup_insert_ne by done.
      by rewrite !lookup_delete_ne.
Qed.

End SearchResults.

Lemma demo_index_store :
  honours_index_store Demo.dot Z.leb Demo.env Demo.stored.
Proof.
  intros coll p w docs w' [= <- <-]. exists w. split; [done|reflexivity].
Qed.

(** In the demonstration world the collection holds seven records and the
    search returns five of them. *)
Example demo_vector_search_returns :
  exists docs s',
    vector_search Demo.env "tech stocks" Demo.news Demo.start
      = (Ret (SearchDocs docs), s') /\
    length docs = 5%nat /\
    (fun d => get_or_NA Demo.env d "title") <$> docs
      = ["a7"; "a6"; "a5"; "a4"; "a3"].
Proof. eexists _, _. split; [vm_compute; reflexivity|]. by vm_compute. Defined.

Lemma vector_search_limit_sorted_witness :
  match fst (vector_search Demo.env "tech stocks" Demo.news Demo.start) with
  | Ret (SearchDocs docs) =>
      (length docs <= 5)%nat /\ Sorted (score_ge Z.leb) docs
  | _ => False
  end.
Proof.
  pose proof (vector_search_limit_sorted Demo.env Demo.dot Z.leb Demo.stored
                "tech stocks" Demo.news Demo.start) as Hsorted.
  destruct demo_vector_search_returns as (docs & s' & Hrun & _).
  rewrite Hrun in Hsorted |- *. apply Hsorted.
  - intros x y. rewrite !Z.leb_le. lia.
  - exact demo_index_store.
Defined.

Lemma vector_search_projection_witness :
  Forall (fun d' : gmap string (value Z) =>
    d' !! "_id" = None /\
    d' !! "embedding" = None /\
    exists (d : gmap string (value Z)) qe v,
      fst (get_embedding Demo.env "tech stocks" Demo.start)
        = Ret (Some qe) /\
      d ∈ Demo.stored
            (world (snd (get_embedding Demo.env "tech stocks" Demo.start)))
            Demo.news /\
      d !! "embedding" = Some (VVector v) /\
      d' !! "score" = Some (VFloat (Demo.dot qe v)) /\
      forall k,
        k <> "_id" -> k <> "embedding" -> k <> "score" -> d' !! k = d !! k)
    Demo.answer.
Proof.
  apply Forall_forall.
  apply (vector_search_projection Demo.env Demo.dot Z.leb Demo.stored
           "tech stocks" Demo.news Demo.start Demo.answer
           (snd (vector_search Demo.env "tech stocks" Demo.news Demo.start))).
  - exact demo_index_store.
  - vm_compute. reflexivity.
Defined.

(** ** The corpus loader *)

Section LoaderFacts.
Context {World float : Type}.
Variable env : services World float.

Abbreviation doc := (gmap string (value float)).

(** The loop of the loader: when every request is answered, it ends with
    the tables of the 200 answers appended to the accumulator, in order, and
    has printed one line per other answer. *)
Lemma loader_loop headers urls (acc : list (frame float))
    (s : state World float) :
  Forall (answered env) (fst (answers env headers urls (world s))) ->
  for_each urls (fetch_into env headers) acc s =
  (Ret (acc ++ omap (fetched_table env)
                (fst (answers env headers urls (world s)))),
   State (snd (answers env headers urls (world s)))
     (log s ++
      concat (fetch_events headers
                <$> fst (answers env headers urls (world s))))).
Proof.
  revert acc s. induction urls as [|url rest IH]; intros acc s Hok.
  - simpl. unfold ret. rewrite !app_nil_r. by destruct s.
  - cbn [for_each answers] in *.
    destruct (requests_get env url headers (world s)) as [a w1] eqn:Hget.
    destruct (answers env headers rest w1) as [l w2] eqn:Hans.
    cbn [fst snd] in *.
    apply Forall_cons in Hok as [(r & Ha & Hparse) Hok].
    cbn [snd] in Ha. subst a.
    pose proof (fun acc' evs => IH acc' (State w1 evs)) as Hrest.
    cbn [world log] in Hrest. rewrite Hans in Hrest. cbn [fst snd] in Hrest.
    rewrite fmap_cons.
    change (omap (fetched_table env) ((url, Ret r) :: l))
      with (match fetched_table env (url, Ret r) with
            | Some df => df :: omap (fetched_table env) l
            | None => omap (fetched_table env) l
            end).
    change (concat (@fetch_events float headers (url, Ret r) ::
                    (fetch_events headers <$> l)))
      with (@fetch_events float headers (url, Ret r) ++
            concat (fetch_events headers <$> l)).
    unfold fetched_table at 1, fetch_events at 1. cbn [fst snd].
    unfold bind at 1, fetch_into, bind at 1, remote. rewrite Hget.
    destruct (status_code r =? 200) eqn:Hcode.
    + apply Z.eqb_eq in Hcode. destruct (Hparse Hcode) as [df Hdf].
      unfold bind, lift, ret. rewrite Hdf, Hrest by done.
      by rewrite <- !app_assoc.
    + unfold bind, print, emit, ret. cbn [world log].
      rewrite Hrest by done.
      unfold failure_line. by rewrite <- !app_assoc.
Qed.

(** One run of the loader when every request is answered. *)
Lemma loader_run urls hf_token (s : state World float) :
  let headers := [("Authorization", "Bearer " +:+ hf_token)] in
  let ans := fst (answers env headers urls (world s)) in
  let w := snd (answers env headers urls (world s)) in
  let tables := omap (fetched_table env) ans in
  let events := concat (fetch_events headers <$> ans) in
  Forall (answered env) ans ->
  download_and_combine_parquet_files env urls hf_token s =
  match tables with
  | _ :: _ => (Ret (Some (pd_concat env tables)), State w (log s ++ events))
  | [] =>
      (Ret None,
       State w (log s ++ events ++ [Print "No dataframes to concatenate."]))
  end.
Proof.
  intros headers ans w tables events Hok.
  unfold download_and_combine_parquet_files.
  fold headers. unfold bind at 1. rewrite loader_loop by done.
  fold ans w tables events. simpl.
  destruct tables; [|done].
  unfold bind, print, emit, ret. simpl. by rewrite <- app_assoc.
Qed.

Lemma refused_answered ua : refused ua -> answered env ua.
Proof. intros (r & Hr & Hcode). exists r. split; [done|]. by intros ?. Qed.

Lemma refused_no_table ans :
  Forall refused ans -> omap (fetched_table env) ans = [].
Proof.
  induction 1 as [|ua ans (r & Hr & Hcode) _ IH]; [done|].
  cbn. unfold fetched_table at 1. rewrite Hr.
  apply Z.eqb_neq in Hcode. by rewrite Hcode.
Qed.

(** An entry of a record brought to the columns [cols]. *)
Lemma lookup_fill cols (r : doc) k :
  fill env cols r !! k =
    match r !! k with
    | Some v => Some v
    | None =>
        if decide (k ∈ cols) then Some (VFloat (float_nan env)) else None
    end.
Proof.
  unfold fill. rewrite lookup_union, lookup_gset_to_gmap.
  destruct (r !! k) as [v|]; [by destruct (guard (k ∈ cols) ≫= _)|].
  case_decide as Hk.
  - by rewrite option_guard_True.
  - by rewrite option_guard_False.
Qed.

(** A record that holds every column is left as it is. *)
Lemma fill_total cols (r : doc) :
  (forall k, k ∈ cols -> is_Some (r !! k)) -> fill env cols r = r.
Proof.
  intros Htotal. apply map_eq. intros k. rewrite lookup_fill.
  destruct (r !! k) as [v|] eqn:Hk; [done|].
  case_decide as Hin; [|done].
  destruct (Htotal k Hin) as [v Hv]. congruence.
Qed.

(** C3. When every request is answered (some of them with a status other
    than 200) and the 200 answers are readable, the loader does not raise.
    The rows of its result are the rows of the files fetched with status
    200, in order and in number, each keeping its entries and reading NaN
    in the columns that only other files have; when every fetched row holds
    every column (the files have the same columns), the rows of the result
    are exactly the fetched rows.  For every location answered with another
    status, the line that names the location and the status has been
    printed. *)
Theorem loader_skips_failed_fetches urls hf_token (s : state World float) :
  let headers := [("Authorization", "Bearer " +:+ hf_token)] in
  let ans := fst (answers env headers urls (world s)) in
  let tables := omap (fetched_table env) ans in
  let cols := ⋃ (columns <$> tables) in
  let fetched := concat (records <$> tables) in
  Forall (answered env) ans ->
  exists res s',
    download_and_combine_parquet_files env urls hf_token s = (Ret res, s') /\
    Forall2 (fun (r' r : doc) =>
               forall k,
                 r' !! k =
                   match r !! k with
                   | Some v => Some v
                   | None =>
                       if decide (k ∈ cols)
                       then Some (VFloat (float_nan env)) else None
                   end)
      (rows res) fetched /\
    (Forall (fun r : doc => forall k, k ∈ cols -> is_Some (r !! k)) fetched ->
     rows res = fetched) /\
    log s' =
      log s ++ concat (fetch_events headers <$> ans) ++
      match res with
      | Some _ => []
      | None => [Print "No dataframes to concatenate."]
      end /\
    forall url r,
      (url, Ret r) ∈ ans -> status_code r <> 200 ->
      Print (failure_line url (status_code r)) ∈ log s'.
Proof.
  intros headers ans tables cols fetched Hok.
  pose proof (loader_run urls hf_token s Hok) as Hrun.
  fold headers ans in Hrun. cbv zeta in Hrun. fold tables in Hrun.
  assert (Hlines : forall url r,
    (url, Ret r) ∈ ans -> status_code r <> 200 ->
    Print (failure_line url (status_code r))
      ∈ concat (@fetch_events float headers <$> ans)).
  { intros url r Hin Hcode. apply list_elem_of_In, in_concat.
    exists (fetch_events headers (url, Ret r)).
    rewrite <- !list_elem_of_In. split.
    - by apply list_elem_of_fmap_2.
    - unfold fetch_events. cbn [fst snd].
      apply Z.eqb_neq in Hcode. rewrite Hcode. set_solver. }
  assert (Hpad : Forall2 (fun (r' r : doc) =>
               forall k,
                 r' !! k =
                   match r !! k with
                   | Some v => Some v
                   | None =>
                       if decide (k ∈ cols)
                       then Some (VFloat (float_nan env)) else None
                   end)
            (fill env cols <$> fetched) fetched).
  { apply Forall2_fmap_l, Forall_Forall2_diag, Forall_forall.
    intros r _ k. apply lookup_fill. }
  assert (Hexact :
    Forall (fun r : doc => forall k, k ∈ cols -> is_Some (r !! k)) fetched ->
    fill env cols <$> fetched = fetched).
  { intros Htotal. rewrite <- (list_fmap_id fetched) at 2.
    apply list_fmap_ext. intros i r Hr. apply fill_total.
    eapply Forall_lookup_1 in Htotal; eauto. }
  destruct tables as [|df rest] eqn:Htables.
  - eexists None, _. split; [exact Hrun|]. cbn [rows log].
    split; [constructor|]. split; [done|]. split; [done|].
    intros url r Hin Hcode. specialize (Hlines url r Hin Hcode).
    rewrite !elem_of_app. auto.
  - eexists (Some _), _. split; [exact Hrun|]. cbn [rows log].
    unfold pd_concat. cbn [records]. fold cols fetched.
    split; [exact Hpad|]. split; [exact Hexact|].
    split; [by rewrite app_nil_r|].
    intros url r Hin Hcode. specialize (Hlines url r Hin Hcode).
    rewrite !elem_of_app. auto.
Qed.

(** C9. When every request is answered with a status other than 200 (or
    there is no location at all), the loader returns [None], not an empty
    table, and the last line it prints is "No dataframes to concatenate." *)
Theorem loader_returns_None_when_all_fail urls hf_token
    (s : state World float) :
  let headers := [("Authorization", "Bearer " +:+ hf_token)] in
  Forall refused (fst (answers env headers urls (world s))) ->
  exists s',
    download_and_combine_parquet_files env urls hf_token s = (Ret None, s') /\
    last (log s') = Some (Print "No dataframes to concatenate.").
Proof.
  intros headers Hall.
  assert (Hok : Forall (answered env)
                  (fst (answers env headers urls (world s)))).
  { eapply Forall_impl; [exact Hall|]. apply refused_answered. }
  pose proof (loader_run urls hf_token s Hok) as Hrun.
  fold headers in Hrun. cbv zeta in Hrun.
  rewrite (refused_no_table _ Hall) in Hrun.
  eexists. split; [exact Hrun|]. cbn [log].
  by rewrite !app_assoc, last_snoc.
Qed.

End LoaderFacts.

Lemma demo_article_total title n k :
  k ∈ Demo.article_columns -> is_Some (Demo.article title n !! k).
Proof.
  unfold Demo.article_columns, Demo.article.
  rewrite elem_of_list_to_set. intros Hk.
  repeat (apply elem_of_cons in Hk as [->|Hk]);
    [..|by apply elem_of_nil in Hk];
    rewrite ?lookup_insert_eq, ?lookup_insert_ne by done; eauto.
Qed.

(** Three locations, the second of which answers 404; the two files
    fetched have the same columns. *)
Lemma loader_skips_failed_fetches_witness :
  exists res s',
    download_and_combine_parquet_files Demo.env Demo.urls "hf_demo"
      Demo.empty_start = (Ret res, s') /\
    rows res = Demo.file_a ++ Demo.file_b /\
    Print "Failed to download Parquet file from https://hub/gone.parquet: 404"
      ∈ log s'.
Proof.
  destruct (loader_skips_failed_fetches Demo.env Demo.urls "hf_demo"
              Demo.empty_start)
    as (res & s' & Hrun & _ & Hrows & _ & Hlines).
  - repeat constructor; eexists; (split; [reflexivity|]); cbn;
      first [ by intros [=] | intros _; eexists; reflexivity ].
  - exists res, s'. split; [exact Hrun|]. split.
    + apply Hrows.
      change (Forall
                (fun r : gmap string (value Z) =>
                   forall k,
                     k ∈ ⋃ [Demo.article_columns; Demo.article_columns] ->
                     is_Some (r !! k))
                [Demo.article "a1" 1; Demo.article "a2" 2;
                 Demo.article "a3" 3]).
      repeat constructor; intros k Hk; apply demo_article_total;
        cbn in Hk; set_solver.
    + apply (Hlines "https://hub/gone.parquet" (Response 404 "")); [|done].
      cbn. set_solver.
Defined.

(** Two files with different columns: each row reads NaN (here -1) in
    the column that only the other file has. *)
Example loader_pads_missing_columns :
  loaded_rows
    (fst (download_and_combine_parquet_files Ragged.env
            ["https://hub/1.parquet"; "https://hub/2.parquet"] "hf_demo"
            Demo.empty_start))
  = [ <["title" := VStr "Chips"]>
      (<["description" := VStr "A plant."]>
      (<["companyName" := VFloat (-1)]> ∅));
      <["companyName" := VStr "10Clouds"]>
      (<["description" := VStr "A cloud."]>
      (<["title" := VFloat (-1)]> ∅)) ].
Proof. vm_compute. reflexivity. Qed.

(** Two locations that both answer 404. *)
Lemma loader_returns_None_when_all_fail_witness :
  exists s',
    download_and_combine_parquet_files Demo.env Demo.dead_urls "hf_demo"
      Demo.empty_start = (Ret None, s') /\
    last (log s') = Some (Print "No dataframes to concatenate.").
Proof.
  apply (loader_returns_None_when_all_fail Demo.env Demo.dead_urls "hf_demo"
           Demo.empty_start).
  repeat constructor; eexists; (split; [reflexivity|]); by cbn.
Defined.

(** ** The answer generator *)

Lemma string_app_assoc (a b c : string) : (a +:+ b) +:+ c = a +:+ b +:+ c.
Proof.
  induction a as [|x a IH]; [done|].
  change (String x ((a +:+ b) +:+ c) = String x (a +:+ b +:+ c)).
  by rewrite IH.
Qed.

Lemma string_app_nil_r (a : string) : a +:+ "" = a.
Proof.
  induction a as [|x a IH]; [done|].
  change (String x (a +:+ "") = String x a). by rewrite IH.
Qed.

Section AnswerFacts.
Context {World float : Type}.
Variable env : services World float.

Abbreviation doc := (gmap string (value float)).

(** The loop that builds [search_result] appends the context block of the
    results. *)
Lemma context_loop (docs : list doc) acc (s : state World float) :
  for_each docs
    (fun result search_result =>
       ret (search_result +:+ render_result env result))
    acc s = (Ret (acc +:+ context_block env docs), s).
Proof.
  revert acc. induction docs as [|d docs IH]; intros acc;
    cbn [for_each context_block].
  - by rewrite string_app_nil_r.
  - unfold bind, ret at 1. rewrite IH. by rewrite string_app_assoc.
Qed.

Lemma build_context_docs (docs : list doc) (s : state World float) :
  build_context env (SearchDocs docs) s = (Ret (context_block env docs), s).
Proof. unfold build_context. by rewrite context_loop. Qed.

(** The events of [vector_search]: it never calls the language model. *)
Lemma vector_search_events q coll (s : state World float) :
  exists evs,
    log (snd (vector_search env q coll s)) = log s ++ evs /\
    lm_requests evs = [].
Proof.
  rewrite vector_search_run.
  destruct (PyStr.all_space q) eqn:Hb.
  - rewrite get_embedding_blank_run by done. simpl.
    destruct (aggregate env coll _ (world s)) as [[ds|e] w];
      eexists; (split; [simpl; by rewrite <- app_assoc|done]).
  - rewrite get_embedding_nonblank_run by done.
    destruct (vo_embed env q _ _ (world s)) as [[[|v l]|e] w]; simpl.
    + exists [VoEmbed q "voyage-large-2" "document"]. done.
    + destruct (aggregate env coll _ w) as [[ds|e] w'];
        eexists; (split; [simpl; by rewrite <- app_assoc|done]).
    + exists [VoEmbed q "voyage-large-2" "document"]. done.
Qed.

(** One run of [handle_user_query] once the search has returned a list. *)
Lemma handle_user_query_run q coll (s : state World float) docs s1 :
  vector_search env q coll s = (Ret (SearchDocs docs), s1) ->
  handle_user_query env q coll s =
    let req := answer_request q (context_block env docs) in
    (match fst (messages_create env req (world s1)) with
     | Ret m =>
         match resp_content m with
         | TextBlock t :: _ => Ret (t, context_block env docs)
         | OtherBlock class_name :: _ =>
             Raise (Exn AttributeError
                      ("'" +:+ class_name +:+
                       "' object has no attribute 'text'"))
         | [] => Raise (Exn IndexError "list index out of range")
         end
     | Raise e => Raise e
     end,
     State (snd (messages_create env req (world s1)))
       (log s1 ++ [MessagesCreate req])).
Proof.
  intros Hsearch. unfold handle_user_query.
  unfold bind at 1. rewrite Hsearch.
  unfold bind at 1. rewrite build_context_docs.
  unfold bind at 1, remote.
  destruct (messages_create env _ (world s1)) as [[m|e] w]; [|done].
  unfold bind, subscript, block_text, ret, raise. simpl.
  by destruct (resp_content m) as [|[t|] rest].
Qed.

Lemma lm_requests_app (evs1 evs2 : list (event float)) :
  lm_requests (evs1 ++ evs2) = lm_requests evs1 ++ lm_requests evs2.
Proof. apply omap_app. Qed.

(** The slot of a field in the line of a result. *)
Lemma get_or_NA_shown (d : doc) k :
  get_or_NA env d k =
    match d !! k with
    | Some (VStr text) => text
    | Some v => format_value env v
    | None => "N/A"
    end.
Proof. unfold get_or_NA. by destruct (d !! k) as [[]|]. Qed.

(** The context block, line by line. *)
Lemma context_block_lines (docs : list doc) :
  context_block env docs =
    foldr (fun d rest => render_result env d +:+ rest) "" docs.
Proof. induction docs as [|d ds IH]; [done|]. cbn. by rewrite IH. Qed.

(** C4. Once the search has returned a list of results, [handle_user_query]
    sends exactly one request to the language model, after the events of the
    search.  Its user message is the instruction text "Answer this user
    query: ", the raw query, the instruction text " with the following
    context: " and the context block.  The context block is the
    concatenation, in order, of one line per result: the labelled title,
    company name, company URL, publication date, article URL and
    description, each followed by a comma and a space, then a newline; a
    field that is a string is shown as it is, and a field that the result
    lacks as N/A.  When the first block of the model's response is a text
    block, its text is returned together with the context block; otherwise
    the error of the call or of the access to the first block propagates. *)
Theorem handle_user_query_request q coll (s : state World float) docs s1 :
  vector_search env q coll s = (Ret (SearchDocs docs), s1) ->
  let shown (d : doc) (k : string) : string :=
    match d !! k with
    | Some (VStr text) => text
    | Some v => format_value env v
    | None => "N/A"
    end in
  let line (d : doc) : string :=
    "Title: " +:+ shown d "title" +:+ ", " +:+
    "Company Name: " +:+ shown d "companyName" +:+ ", " +:+
    "Company URL: " +:+ shown d "companyUrl" +:+ ", " +:+
    "Date Published: " +:+ shown d "published_at" +:+ ", " +:+
    "Article URL: " +:+ shown d "url" +:+ ", " +:+
    "Description: " +:+ shown d "description" +:+ ", " +:+
    String "010"%char "" in
  let ctx := foldr (fun d rest => line d +:+ rest) "" docs in
  let req :=
    {| req_model := "claude-3-opus-20240229";
       req_max_tokens := 1024;
       req_system := system_prompt;
       req_messages :=
         [ {| role := "user";
              msg_content :=
                "Answer this user query: " +:+ q +:+
                " with the following context: " +:+ ctx |} ] |} in
  let out := handle_user_query env q coll s in
  log (snd out) = log s1 ++ [MessagesCreate req] /\
  (exists evs, log (snd out) = log s ++ evs /\ lm_requests evs = [req]) /\
  fst out =
    match fst (messages_create env req (world s1)) with
    | Ret m =>
        match resp_content m with
        | TextBlock t :: _ => Ret (t, ctx)
        | OtherBlock class_name :: _ =>
            Raise (Exn AttributeError
                     ("'" +:+ class_name +:+
                      "' object has no attribute 'text'"))
        | [] => Raise (Exn IndexError "list index out of range")
        end
    | Raise e => Raise e
    end.
Proof.
  intros Hsearch shown line ctx req out.
  assert (Hctx : context_block env docs = ctx).
  { rewrite context_block_lines. subst ctx. apply foldr_ext; [|done..].
    intros d rest. f_equal.
    unfold render_result, line, shown. by rewrite !get_or_NA_shown. }
  pose proof (handle_user_query_run q coll s docs s1 Hsearch) as Hrun.
  cbv zeta in Hrun. rewrite Hctx in Hrun.
  change (answer_request q ctx) with req in Hrun.
  subst out. rewrite Hrun. cbn [fst snd log]. split; [done|].
  split; [|done].
  destruct (vector_search_events q coll s) as (evs & Hlog & Hnone).
  rewrite Hsearch in Hlog. cbn [snd] in Hlog.
  exists (evs ++ [MessagesCreate req]). split.
  - by rewrite Hlog, app_assoc.
  - by rewrite lm_requests_app, Hnone.
Qed.

(** C7. With an empty list of results the context block is the empty
    string, the request is sent all the same, and the text of the model's
    first block is returned with the empty context; nothing is raised. *)
Theorem handle_user_query_empty_results q coll (s : state World float)
    s1 m t rest w :
  vector_search env q coll s = (Ret (SearchDocs []), s1) ->
  let req :=
    {| req_model := "claude-3-opus-20240229";
       req_max_tokens := 1024;
       req_system := system_prompt;
       req_messages :=
         [ {| role := "user";
              msg_content :=
                "Answer this user query: " +:+ q +:+
                " with the following context: " +:+ "" |} ] |} in
  messages_create env req (world s1) = (Ret m, w) ->
  resp_content m = TextBlock t :: rest ->
  handle_user_query env q coll s =
    (Ret (t, ""), State w (log s1 ++ [MessagesCreate req])).
Proof.
  intros Hsearch req Hcall Hfirst.
  rewrite (handle_user_query_run q coll s [] s1 Hsearch).
  cbv zeta. cbn [context_block].
  change (answer_request q "") with req.
  rewrite Hcall. cbn [fst snd]. by rewrite Hfirst.
Qed.

End AnswerFacts.

(** ** Connecting to the database *)

Section ConnectFacts.
Context {World float : Type}.
Variable env : services World float.

Lemma get_mongo_client_failure uri (s : state World float) e w :
  MongoClient env uri (world s) = (Raise e, w) ->
  exn_cls e = ConnectionFailure ->
  get_mongo_client env uri s =
    (Ret None,
     State w (log s ++ [MongoConnect uri;
                        Print ("Connection failed: " +:+ exn_msg e)])).
Proof.
  intros Hcall Hcls. unfold get_mongo_client, try_except, bind, remote.
  rewrite Hcall. unfold is_ConnectionFailure. rewrite Hcls.
  unfold print, emit, ret. cbn [world log]. by rewrite <- app_assoc.
Qed.

(** C8. When [MongoClient] raises a [ConnectionFailure], the failure is
    printed, and the run stops at the cell that connects (on the subscript of
    the [None] that [get_mongo_client] returned): no operation is sent to
    the database. *)
Theorem connection_failure_aborts uri df q (s : state World float) e w :
  MongoClient env uri (world s) = (Raise e, w) ->
  exn_cls e = ConnectionFailure ->
  exists evs,
    run_from_connect env uri df q s =
      (Raise (Exn TypeError "'NoneType' object is not subscriptable"),
       State w (log s ++ evs)) /\
    last evs = Some (Print ("Connection failed: " +:+ exn_msg e)) /\
    db_operations evs = [].
Proof.
  intros Hcall Hcls. unfold run_from_connect, connect_cell.
  destruct (uri_truthy uri); cbn [negb].
  - exists [MongoConnect uri; Print ("Connection failed: " +:+ exn_msg e)].
    unfold bind, ret.
    rewrite (get_mongo_client_failure uri s e w Hcall Hcls).
    done.
  - exists [Print "MONGO_URI not set in environment variables";
            MongoConnect uri; Print ("Connection failed: " +:+ exn_msg e)].
    unfold bind, print, emit.
    rewrite (get_mongo_client_failure uri
               (State (world s)
                  (log s ++
                   [Print "MONGO_URI not set in environment variables"]))
               e w Hcall Hcls).
    cbn [world log raise]. by rewrite <- app_assoc.
Qed.

End ConnectFacts.

(** The demonstration model answers with the user message it was sent:
    five results, of which the records hold a title and a company name. *)
Lemma handle_user_query_request_witness :
  let ctx :=
    "Title: a7, Company Name: 10Clouds, Company URL: N/A, Date Published: N/A, Article URL: N/A, Description: N/A, 
Title: a6, Company Name: 10Clouds, Company URL: N/A, Date Published: N/A, Article URL: N/A, Description: N/A, 
Title: a5, Company Name: 10Clouds, Company URL: N/A, Date Published: N/A, Article URL: N/A, Description: N/A, 
Title: a4, Company Name: 10Clouds, Company URL: N/A, Date Published: N/A, Article URL: N/A, Description: N/A, 
Title: a3, Company Name: 10Clouds, Company URL: N/A, Date Published: N/A, Article URL: N/A, Description: N/A, 
" in
  let out := handle_user_query Demo.env "tech stocks" Demo.news Demo.start in
  fst out =
    Ret ("Answer this user query: tech stocks with the following context: "
         +:+ ctx, ctx) /\
  lm_requests (log (snd out)) =
    [ {| req_model := "claude-3-opus-20240229";
         req_max_tokens := 1024;
         req_system := system_prompt;
         req_messages :=
           [ {| role := "user";
                msg_content :=
                  "Answer this user query: tech stocks with the following context: "
                  +:+ ctx |} ] |} ].
Proof.
  destruct (handle_user_query_request Demo.env "tech stocks" Demo.news
              Demo.start Demo.answer
              (snd (vector_search Demo.env "tech stocks" Demo.news
                      Demo.start)))
    as (Hlog & _ & Hout).
  - vm_compute. reflexivity.
  - split.
    + rewrite Hout. vm_compute. reflexivity.
    + rewrite Hlog. vm_compute. reflexivity.
Defined.

(** An empty collection: the search returns no result. *)
Lemma handle_user_query_empty_results_witness :
  exists s',
    handle_user_query Demo.env "tech stocks" Demo.news Demo.empty_start =
      (Ret ("Answer this user query: tech stocks with the following context: ",
            ""), s').
Proof.
  eexists.
  eapply (handle_user_query_empty_results Demo.env "tech stocks" Demo.news
            Demo.empty_start).
  - vm_compute. reflexivity.
  - reflexivity.
  - reflexivity.
Defined.

(** No URI is configured and nothing listens on the default address. *)
Lemma connection_failure_aborts_witness :
  exists evs,
    run_from_connect Demo.env None Demo.corpus "tech stocks" Demo.empty_start =
      (Raise (Exn TypeError "'NoneType' object is not subscriptable"),
       State [] ([] ++ evs)) /\
    last evs =
      Some (Print "Connection failed: localhost:27017: connection refused") /\
    db_operations evs = [].
Proof.
  apply (connection_failure_aborts Demo.env None Demo.corpus "tech stocks"
           Demo.empty_start
           (Exn ConnectionFailure "localhost:27017: connection refused") []);
    reflexivity.
Defined.

(** ** The rendered line, against the output recorded in the notebook *)

Example render_result_recorded :
  render_result Demo.env
    (<["title" := VStr "3 Tech Stocks I Love Right Now"]>
     (<["companyName" := VStr "10Clouds"]>
     (<["companyUrl" := VStr "https://hackernoon.com/company/10clouds"]>
     (<["published_at" := VStr "2023-04-02 11:30:00"]>
     (<["url" := VStr "https://www.msn.com/en-xl/money/other/3-tech-stocks-i-love-right-now/ar-AA19n9Ht"]>
     (<["description" := VStr "These are tech giants but they''re also great investments."]>
     (<["score" := VFloat 7]> ∅)))))))
  = "Title: 3 Tech Stocks I Love Right Now, Company Name: 10Clouds, Company URL: https://hackernoon.com/company/10clouds, Date Published: 2023-04-02 11:30:00, Article URL: https://www.msn.com/en-xl/money/other/3-tech-stocks-i-love-right-now/ar-AA19n9Ht, Description: These are tech giants but they''re also great investments., "
    +:+ String (ascii_of_nat 10) "".
Proof. vm_compute. reflexivity. Qed.

(** A record without the fields: every slot reads N/A. *)
Example render_result_missing :
  render_result Demo.env ∅
  = "Title: N/A, Company Name: N/A, Company URL: N/A, Date Published: N/A, Article URL: N/A, Description: N/A, "
    +:+ String (ascii_of_nat 10) "".
Proof. vm_compute. reflexivity. Qed.

(** * Further properties of the notebook *)

(** ** The loop combinator *)

Section LoopFacts.
Context {World float : Type}.

Lemma for_each_app {A S} (xs ys : list A)
    (body : A -> S -> @M World float S) acc s :
  for_each (xs ++ ys) body acc s =
  bind (for_each xs body acc) (for_each ys body) s.
Proof.
  revert acc s. induction xs as [|x xs IH]; intros acc s.
  - reflexivity.
  - cbn [app for_each]. unfold bind.
    destruct (body x acc s) as [[acc'|e] s']; [|done].
    rewrite IH. reflexivity.
Qed.

End LoopFacts.

(** ** More on the corpus loader *)

Section LoaderMore.
Context {World float : Type}.
Variable env : services World float.

Abbreviation doc := (gmap string (value float)).

Lemma answers_app headers urls1 urls2 (w : World) :
  answers env headers (urls1 ++ urls2) w =
  (fst (answers env headers urls1 w) ++
     fst (answers env headers urls2 (snd (answers env headers urls1 w))),
   snd (answers env headers urls2 (snd (answers env headers urls1 w)))).
Proof.
  revert w. induction urls1 as [|url urls1 IH]; intros w.
  - cbn. by destruct (answers env headers urls2 w).
  - cbn [app answers].
    destruct (requests_get env url headers w) as [a w1].
    rewrite IH.
    destruct (answers env headers urls1 w1) as [l1 w2]. cbn [fst snd].
    by destruct (answers env headers urls2 w2).
Qed.

Lemma answers_urls headers urls (w : World) :
  fst <$> fst (answers env headers urls w) = urls.
Proof.
  revert w. induction urls as [|url urls IH]; intros w; [done|].
  cbn [answers]. destruct (requests_get env url headers w) as [a w1].
  specialize (IH w1). destruct (answers env headers urls w1) as [l w2].
  cbn in *. by rewrite IH.
Qed.

Lemma http_requests_app (evs1 evs2 : list (event float)) :
  http_requests (evs1 ++ evs2) = http_requests evs1 ++ http_requests evs2.
Proof. apply omap_app. Qed.

Lemma http_requests_fetch_events headers
    (ans : list (string * result response)) :
  http_requests (concat (@fetch_events float headers <$> ans)) =
  (fun ua => (fst ua, headers)) <$> ans.
Proof.
  induction ans as [|[url a] ans IH]; [done|].
  rewrite !fmap_cons.
  change (concat (@fetch_events float headers (url, a) ::
                  (fetch_events headers <$> ans)))
    with (@fetch_events float headers (url, a) ++
          concat (fetch_events headers <$> ans)).
  rewrite http_requests_app, IH. unfold fetch_events. cbn [fst snd].
  destruct a as [r|e]; [|done]. by destruct (status_code r =? 200).
Qed.

(** The rows and the columns of the loader's result when every request is
    answered. *)
Lemma loader_rows urls hf_token (s : state World float) :
  let headers := [("Authorization", "Bearer " +:+ hf_token)] in
  let run := download_and_combine_parquet_files env urls hf_token s in
  let tables :=
    omap (fetched_table env) (fst (answers env headers urls (world s))) in
  Forall (answered env) (fst (answers env headers urls (world s))) ->
  loaded_rows (fst run) =
    fill env (⋃ (columns <$> tables)) <$> concat (records <$> tables) /\
  loaded_columns (fst run) = ⋃ (columns <$> tables) /\
  world (snd run) = snd (answers env headers urls (world s)).
Proof.
  intros headers run tables Hok.
  pose proof (loader_run env urls hf_token s Hok) as Hrun.
  fold headers in Hrun. cbv zeta in Hrun. fold tables in Hrun.
  subst run. rewrite Hrun.
  by destruct tables as [|df rest].
Qed.

(** X1. The loop has no handler: when a request raises, or a body received
    with status 200 cannot be read, the loader raises that exception at once.
    The tables fetched before are lost and the locations after are never
    requested. *)
Theorem loader_exception_stops pre url post hf_token
    (s : state World float) a w1 e :
  let headers := [("Authorization", "Bearer " +:+ hf_token)] in
  let ans := fst (answers env headers pre (world s)) in
  Forall (answered env) ans ->
  requests_get env url headers (snd (answers env headers pre (world s)))
    = (a, w1) ->
  (a = Raise e \/
   exists r,
     a = Ret r /\ status_code r = 200 /\
     read_parquet env (content r) = Raise e) ->
  download_and_combine_parquet_files env (pre ++ url :: post) hf_token s =
    (Raise e,
     State w1
       (log s ++ concat (fetch_events headers <$> ans)
              ++ [HttpGet url headers])).
Proof.
  intros headers ans Hok Hget Hfail.
  unfold download_and_combine_parquet_files. fold headers.
  unfold bind at 1. rewrite for_each_app. unfold bind at 1.
  rewrite loader_loop by done. fold ans.
  cbn [for_each]. unfold bind at 1, fetch_into, bind at 1, remote.
  cbn [world log]. rewrite Hget. rewrite <- app_assoc.
  destruct Hfail as [->|(r & -> & Hcode & Hread)]; [done|].
  apply Z.eqb_eq in Hcode. rewrite Hcode.
  unfold bind, lift. by rewrite Hread.
Qed.

(** X2. When every request is answered, the loader requests each location
    exactly once, in the order of the list, failed ones included, and every
    request carries the bearer token in its Authorization header. *)
Theorem loader_requests_each_location_once urls hf_token
    (s : state World float) :
  let headers := [("Authorization", "Bearer " +:+ hf_token)] in
  Forall (answered env) (fst (answers env headers urls (world s))) ->
  exists evs,
    log (snd (download_and_combine_parquet_files env urls hf_token s))
      = log s ++ evs /\
    http_requests evs = (fun url => (url, headers)) <$> urls.
Proof.
  intros headers Hok.
  pose proof (loader_run env urls hf_token s Hok) as Hrun.
  fold headers in Hrun. cbv zeta in Hrun. rewrite Hrun.
  pose proof (answers_urls headers urls (world s)) as Hurls.
  assert (Hreq :
    http_requests
      (concat (@fetch_events float headers
                 <$> fst (answers env headers urls (world s))))
    = (fun url => (url, headers)) <$> urls).
  { rewrite http_requests_fetch_events. rewrite <- Hurls at 2.
    by rewrite <- list_fmap_compose. }
  destruct (omap (fetched_table env) _) as [|df tables]; cbn [snd log].
  - eexists. split; [reflexivity|].
    by rewrite http_requests_app, Hreq, app_nil_r.
  - eexists. split; [reflexivity|]. exact Hreq.
Qed.

(** Rows padded to columns that they already hold are unchanged. *)
Lemma padded_exact (cols : gset string) (rows' rows : list doc) :
  Forall2 (fun (r' r : doc) =>
             forall k,
               r' !! k =
                 match r !! k with
                 | Some v => Some v
                 | None =>
                     if decide (k ∈ cols)
                     then Some (VFloat (float_nan env)) else None
                 end)
    rows' rows ->
  Forall (fun r : doc => forall k, k ∈ cols -> is_Some (r !! k)) rows ->
  rows' = rows.
Proof.
  induction 1 as [|r' r rows' rows Hr _ IH]; [done|].
  intros [Htotal Hrest]%Forall_cons. f_equal; [|by apply IH].
  apply map_eq. intros k. rewrite Hr.
  destruct (r !! k) as [v|] eqn:Hk; [done|].
  destruct (decide (k ∈ cols)) as [Hin|Hout]; [|done].
  destruct (Htotal k Hin) as [v Hv]. congruence.
Qed.

(** X3. Loading two lists of locations one after the other gives the rows
    of loading their concatenation at once (every request being answered):
    the rows of the first list, then those of the second, each reading NaN
    in the columns that only the other list has.  The columns are those of
    both lists; and when every row already holds them all, the rows are
    exactly the same. *)
Theorem loader_append urls1 urls2 hf_token (s : state World float) :
  let headers := [("Authorization", "Bearer " +:+ hf_token)] in
  let first := download_and_combine_parquet_files env urls1 hf_token s in
  let second :=
    download_and_combine_parquet_files env urls2 hf_token (snd first) in
  let both :=
    download_and_combine_parquet_files env (urls1 ++ urls2) hf_token s in
  let separate := loaded_rows (fst first) ++ loaded_rows (fst second) in
  Forall (answered env)
    (fst (answers env headers (urls1 ++ urls2) (world s))) ->
  loaded_columns (fst both) =
    loaded_columns (fst first) ∪ loaded_columns (fst second) /\
  Forall2 (fun (r' r : doc) =>
             forall k,
               r' !! k =
                 match r !! k with
                 | Some v => Some v
                 | None =>
                     if decide (k ∈ loaded_columns (fst both))
                     then Some (VFloat (float_nan env)) else None
                 end)
    (loaded_rows (fst both)) separate /\
  (Forall (fun r : doc =>
             forall k, k ∈ loaded_columns (fst both) -> is_Some (r !! k))
     separate ->
   loaded_rows (fst both) = separate).
Proof.
  intros headers first second both separate Hok.
  destruct (loader_rows (urls1 ++ urls2) hf_token s Hok)
    as (Hrows & Hcols & _).
  fold headers both in Hrows, Hcols.
  rewrite answers_app in Hok, Hrows, Hcols. cbn [fst] in Hok, Hrows, Hcols.
  apply Forall_app in Hok as [Hok1 Hok2].
  destruct (loader_rows urls1 hf_token s Hok1) as (Hrows1 & Hcols1 & Hw).
  fold headers first in Hrows1, Hcols1, Hw.
  assert (Hok2' : Forall (answered env)
            (fst (answers env headers urls2 (world (snd first))))).
  { by rewrite Hw. }
  destruct (loader_rows urls2 hf_token (snd first) Hok2')
    as (Hrows2 & Hcols2 & _).
  fold headers second in Hrows2, Hcols2. rewrite Hw in Hrows2, Hcols2.
  set (tables1 :=
         omap (fetched_table env) (fst (answers env headers urls1 (world s))))
    in *.
  set (tables2 :=
         omap (fetched_table env)
           (fst (answers env headers urls2
                   (snd (answers env headers urls1 (world s)))))) in *.
  rewrite omap_app in Hrows, Hcols. fold tables1 tables2 in Hrows, Hcols.
  rewrite fmap_app, union_list_app_L in Hcols.
  rewrite !fmap_app, union_list_app_L in Hrows.
  rewrite (concat_app (records <$> tables1) (records <$> tables2)) in Hrows.
  rewrite fmap_app in Hrows.
  assert (Hunion : loaded_columns (fst both) =
            loaded_columns (fst first) ∪ loaded_columns (fst second)).
  { by rewrite Hcols, Hcols1, Hcols2. }
  assert (Hpad : Forall2 (fun (r' r : doc) =>
             forall k,
               r' !! k =
                 match r !! k with
                 | Some v => Some v
                 | None =>
                     if decide (k ∈ loaded_columns (fst both))
                     then Some (VFloat (float_nan env)) else None
                 end)
            (loaded_rows (fst both)) separate).
  { subst separate. rewrite Hrows, Hrows1, Hrows2, Hcols.
    apply Forall2_app; apply Forall2_fmap, Forall_Forall2_diag, Forall_forall;
      intros r _ k; rewrite !lookup_fill; (destruct (r !! k); [done|]).
    - destruct (decide (k ∈ ⋃ (columns <$> tables1))) as [Hin|Hout]; [|done].
      rewrite decide_True; [done|]. apply elem_of_union. by left.
    - destruct (decide (k ∈ ⋃ (columns <$> tables2))) as [Hin|Hout]; [|done].
      rewrite decide_True; [done|]. apply elem_of_union. by right. }
  split; [done|]. split; [done|].
  intros Htotal. by eapply padded_exact.
Qed.

End LoaderMore.

(** ** More on the embedder and the search *)

Section SearchMore.
Context {World float : Type}.
Variable env : services World float.

Abbreviation doc := (gmap string (value float)).

(** X4. [get_embedding] sends at most one request to the embedding service:
    none for a text made of whitespace, and otherwise one that carries the
    text as given (not stripped), the model voyage-large-2 and the input type
    document, whatever the service answers. *)
Theorem get_embedding_requests text (s : state World float) :
  exists evs,
    log (snd (get_embedding env text s)) = log s ++ evs /\
    embed_requests evs =
      if PyStr.all_space text then []
      else [(text, "voyage-large-2", "document")].
Proof.
  destruct (PyStr.all_space text) eqn:Hb.
  - rewrite get_embedding_blank_run by done. by eexists.
  - rewrite get_embedding_nonblank_run by done.
    exists [VoEmbed text "voyage-large-2" "document"].
    by destruct (vo_embed env text _ _ (world s)) as [[[|v l]|e] w].
Qed.

Lemma db_operations_app (evs1 evs2 : list (event float)) :
  db_operations (evs1 ++ evs2) = db_operations evs1 ++ db_operations evs2.
Proof. apply omap_app. Qed.

(** The events of [vector_search], with the database operations among
    them. *)
Lemma vector_search_db_events q coll (s : state World float) :
  exists evs,
    log (snd (vector_search env q coll s)) = log s ++ evs /\
    lm_requests evs = [] /\
    db_operations evs =
      match fst (get_embedding env q s) with
      | Ret (Some qe) => [Aggregate coll (search_pipeline qe)]
      | _ => []
      end.
Proof.
  rewrite vector_search_run.
  destruct (PyStr.all_space q) eqn:Hb.
  - rewrite get_embedding_blank_run by done. simpl.
    destruct (aggregate env coll _ (world s)) as [[ds|e] w];
      eexists; (split; [simpl; by rewrite <- app_assoc|done]).
  - rewrite get_embedding_nonblank_run by done.
    destruct (vo_embed env q _ _ (world s)) as [[[|v l]|e] w]; simpl.
    + exists [VoEmbed q "voyage-large-2" "document"]. done.
    + destruct (aggregate env coll _ w) as [[ds|e] w'];
        eexists; (split; [simpl; by rewrite <- app_assoc|done]).
    + exists [VoEmbed q "voyage-large-2" "document"]. done.
Qed.


(** The events of [handle_user_query]. *)
Lemma handle_user_query_events q coll (s : state World float) :
  exists evs,
    log (snd (handle_user_query env q coll s)) = log s ++ evs /\
    lm_requests evs =
      match fst (vector_search env q coll s) with
      | Ret (SearchDocs docs) => [answer_request q (context_block env docs)]
      | _ => []
      end /\
    db_operations evs =
      match fst (get_embedding env q s) with
      | Ret (Some qe) => [Aggregate coll (search_pipeline qe)]
      | _ => []
      end.
Proof.
  destruct (vector_search_db_events q coll s) as (evs & Hlog & Hlm & Hdb).
  destruct (vector_search env q coll s) as [[[m|docs]|e] s1] eqn:Hsearch.
  - exfalso. pose proof (get_embedding_not_None env q s) as Hn.
    rewrite vector_search_run in Hsearch.
    destruct (get_embedding env q s) as [[[qe|]|e] s2]; [|done|done].
    simpl in Hsearch.
    by destruct (aggregate env coll _ (world s2)) as [[ds|e] w].
  - rewrite (handle_user_query_run env q coll s docs s1 Hsearch).
    cbv zeta. cbn [fst snd log] in *.
    exists (evs ++ [MessagesCreate (answer_request q (context_block env docs))]).
    rewrite Hlog, app_assoc, lm_requests_app, db_operations_app, Hlm, Hdb.
    split; [done|]. split; [done|]. by rewrite app_nil_r.
  - unfold handle_user_query, bind. rewrite Hsearch. cbn [fst snd] in *.
    eauto.
Qed.

(** X7. [handle_user_query] sends the language model at most one request,
    and none when the search raised: the exception of the search leaves
    [handle_user_query] as it is and nothing is sent. *)
Theorem handle_user_query_search_failure q coll (s : state World float) :
  (exists evs,
     log (snd (handle_user_query env q coll s)) = log s ++ evs /\
     (length (lm_requests evs) <= 1)%nat) /\
  forall e s1,
    vector_search env q coll s = (Raise e, s1) ->
    handle_user_query env q coll s = (Raise e, s1) /\
    exists evs, log s1 = log s ++ evs /\ lm_requests evs = [].
Proof.
  split.
  - destruct (handle_user_query_events q coll s) as (evs & Hlog & Hlm & _).
    exists evs. split; [done|]. rewrite Hlm.
    by destruct (fst (vector_search env q coll s)) as [[m|docs]|e]; cbn; lia.
  - intros e s1 Hsearch.
    destruct (vector_search_db_events q coll s) as (evs & Hlog & Hlm & _).
    rewrite Hsearch in Hlog. cbn [snd] in Hlog.
    split; [|eauto].
    unfold handle_user_query, bind. by rewrite Hsearch.
Qed.

(** The fields of a result that the context line shows. *)
Lemma get_or_NA_agree (d1 d2 : doc) k :
  d1 !! k = d2 !! k -> get_or_NA env d1 k = get_or_NA env d2 k.
Proof. unfold get_or_NA. by intros ->. Qed.

(** X8. The line rendered for a result depends on six of its fields only
    (title, companyName, companyUrl, published_at, url, description): two
    records that agree on them give the same line, so that neither the
    similarity score nor any other field reaches the language model. *)
Theorem render_result_shown_fields (d1 d2 : doc) :
  Forall (fun k => d1 !! k = d2 !! k)
    ["title"; "companyName"; "companyUrl"; "published_at"; "url";
     "description"] ->
  render_result env d1 = render_result env d2.
Proof.
  intros Hagree.
  repeat (apply Forall_cons in Hagree as [? Hagree]).
  unfold render_result.
  by rewrite (get_or_NA_agree d1 d2 "title"),
    (get_or_NA_agree d1 d2 "companyName"),
    (get_or_NA_agree d1 d2 "companyUrl"),
    (get_or_NA_agree d1 d2 "published_at"),
    (get_or_NA_agree d1 d2 "url"),
    (get_or_NA_agree d1 d2 "description").
Qed.

End SearchMore.

(** ** More on connecting and ingesting *)

Section ConnectMore.
Context {World float : Type}.
Variable env : services World float.

Abbreviation doc := (gmap string (value float)).

(** One run of [get_mongo_client]. *)
Lemma get_mongo_client_run uri (s : state World float) :
  get_mongo_client env uri s =
    let '(r, w) := MongoClient env uri (world s) in
    match r with
    | Ret client =>
        (Ret (Some client),
         State w (log s ++ [MongoConnect uri;
                            Print "Connection to MongoDB successful"]))
    | Raise e =>
        if is_ConnectionFailure e then
          (Ret None,
           State w (log s ++ [MongoConnect uri;
                              Print ("Connection failed: " +:+ exn_msg e)]))
        else (Raise e, State w (log s ++ [MongoConnect uri]))
    end.
Proof.
  unfold get_mongo_client, try_except, bind, remote.
  destruct (MongoClient env uri (world s)) as [[client|e] w].
  - unfold print, emit, ret. cbn [world log]. by rewrite <- app_assoc.
  - destruct (is_ConnectionFailure e); [|done].
    unfold print, emit, ret. cbn [world log]. by rewrite <- app_assoc.
Qed.

(** X9. [get_mongo_client] never raises a [ConnectionFailure] and returns
    [None] only after one; any other exception of [MongoClient] leaves it
    unchanged, with no line printed; a client is returned exactly when
    [MongoClient] returned it. *)
Theorem get_mongo_client_outcomes uri (s : state World float) :
  match get_mongo_client env uri s with
  | (Ret (Some client), _) =>
      fst (MongoClient env uri (world s)) = Ret client
  | (Ret None, _) =>
      exists e,
        fst (MongoClient env uri (world s)) = Raise e /\
        exn_cls e = ConnectionFailure
  | (Raise e, s') =>
      fst (MongoClient env uri (world s)) = Raise e /\
      exn_cls e <> ConnectionFailure /\
      log s' = log s ++ [MongoConnect uri]
  end.
Proof.
  rewrite get_mongo_client_run.
  destruct (MongoClient env uri (world s)) as [[client|e] w]; [done|].
  unfold is_ConnectionFailure. cbn [fst].
  destruct (exn_cls e) eqn:Hcls; cbn [log].
  all: try (split; [done|split; [by rewrite Hcls|done]]).
  by exists e.
Qed.

(** X10. A missing or empty [MONGO_URI] does not stop the cell: the warning
    is printed and [MongoClient] is called with the value all the same. *)
Theorem connect_cell_unset_uri uri (s : state World float) :
  uri_truthy uri = false ->
  exists evs,
    log (snd (connect_cell env uri s)) =
      log s ++ [Print "MONGO_URI not set in environment variables";
                MongoConnect uri] ++ evs.
Proof.
  intros Huri. unfold connect_cell. rewrite Huri. cbn [negb].
  unfold bind at 1, print, emit. unfold bind at 1.
  rewrite get_mongo_client_run. cbn [world log].
  destruct (MongoClient env uri (world s)) as [[client|e] w].
  - unfold bind, ret. cbn [snd log]. eexists [_].
    by rewrite <- app_assoc.
  - destruct (is_ConnectionFailure e).
    + unfold bind, raise. cbn [snd log]. eexists [_].
      by rewrite <- app_assoc.
    + cbn [snd log]. exists []. by rewrite <- app_assoc.
Qed.

(** One run of the connecting cell when [MongoClient] returns. *)
Lemma connect_cell_success uri (s : state World float) client w :
  MongoClient env uri (world s) = (Ret client, w) ->
  exists evs,
    connect_cell env uri s =
      (Ret (Collection (Database client "tech_news") "hacker_noon_tech_news"),
       State w (log s ++ evs)) /\
    db_operations evs = [].
Proof.
  intros Hcall. unfold connect_cell.
  destruct (uri_truthy uri); cbn [negb].
  - unfold bind at 1, ret at 1. unfold bind at 1.
    rewrite get_mongo_client_run, Hcall. unfold bind, ret.
    eexists. split; [reflexivity|done].
  - unfold bind at 1, print, emit. unfold bind at 1.
    rewrite get_mongo_client_run. cbn [world log]. rewrite Hcall.
    unfold bind, ret. eexists [_; _; _].
    split; [by rewrite <- app_assoc|done].
Qed.

(** X11. Once connected, the run clears the collection before anything
    else is sent to the database, inserts the given table only after the
    clearing has returned, and queries only after the insertion has
    returned; the operations go to the collection hacker_noon_tech_news of
    the database tech_news. *)
Theorem run_from_connect_database_operations uri df q
    (s : state World float) client w1 :
  MongoClient env uri (world s) = (Ret client, w1) ->
  let coll :=
    Collection (Database client "tech_news") "hacker_noon_tech_news" in
  exists evs rest,
    log (snd (run_from_connect env uri df q s)) = log s ++ evs /\
    db_operations evs =
      DeleteMany coll ::
      match fst (delete_many env coll w1) with
      | Raise _ => []
      | Ret _ =>
          InsertMany coll df ::
          match fst (insert_many env coll df
                       (snd (delete_many env coll w1))) with
          | Raise _ => []
          | Ret _ => rest
          end
      end /\
    (length rest <= 1)%nat /\
    Forall (fun ev => exists qe, ev = Aggregate coll (search_pipeline qe))
      rest.
Proof.
  intros Hcall coll.
  destruct (connect_cell_success uri s client w1 Hcall)
    as (evs0 & Hconnect & Hdb0).
  fold coll in Hconnect.
  unfold run_from_connect. unfold bind at 1. rewrite Hconnect.
  unfold bind at 1, clear_cell, remote. cbn [world log].
  destruct (delete_many env coll w1) as [[[]|e2] w2]; cbn [fst snd].
  2:{ exists (evs0 ++ [DeleteMany coll]), []. cbn [snd log].
      rewrite app_assoc, db_operations_app, Hdb0.
      split; [done|]. split; [done|]. split; [cbn; lia|constructor]. }
  unfold bind at 1, ingest_cell, remote. cbn [world log].
  destruct (insert_many env coll df w2) as [[[]|e3] w3]; cbn [fst snd].
  2:{ exists (evs0 ++ [DeleteMany coll; InsertMany coll df]), [].
      cbn [snd log].
      rewrite <- !app_assoc, db_operations_app, Hdb0.
      split; [done|]. split; [done|]. split; [cbn; lia|constructor]. }
  set (s3 := State w3 (((log s ++ evs0) ++ [DeleteMany coll]) ++
                       [InsertMany coll df])).
  destruct (handle_user_query_events env q coll s3)
    as (evs3 & Hlog3 & _ & Hdb3).
  assert (Hquery : exists evs4,
    log (snd (query_cell env q coll s3)) = log s3 ++ evs3 ++ evs4 /\
    db_operations evs4 = []).
  { unfold query_cell, bind at 1.
    destruct (handle_user_query env q coll s3) as [[[text ctx]|e] s4].
    - cbn [snd] in Hlog3. unfold bind, print, emit. cbn [snd log world].
      rewrite Hlog3. eexists [_; _].
      split; [by rewrite <- !app_assoc|done].
    - cbn [snd] in *. exists []. by rewrite app_nil_r. }
  destruct Hquery as (evs4 & Hlog4 & Hdb4).
  exists (evs0 ++ [DeleteMany coll; InsertMany coll df] ++ evs3 ++ evs4),
    (db_operations evs3).
  split.
  - rewrite Hlog4. subst s3. cbn [log]. by rewrite <- !app_assoc.
  - rewrite !db_operations_app, Hdb0, Hdb4, app_nil_r.
    split; [done|]. rewrite Hdb3.
    destruct (fst (get_embedding env q s3)) as [[qe|]|e]; cbn;
      split; try lia; repeat constructor. by exists qe.
Qed.

End ConnectMore.

(** ** The cells that prepare the table *)

Section PreparationFacts.
Context {World float : Type}.
Variable env : services World float.

Abbreviation doc := (gmap string (value float)).

Lemma embed_requests_app (evs1 evs2 : list (event float)) :
  embed_requests (evs1 ++ evs2) = embed_requests evs1 ++ embed_requests evs2.
Proof. apply omap_app. Qed.

(** What one call of [get_embedding] on an element of the column does. *)
Lemma get_embedding_of_events v (s : state World float) :
  exists evs,
    log (snd (get_embedding_of env v s)) = log s ++ evs /\
    (length (embed_requests evs) <= 1)%nat.
Proof.
  destruct v as [text| | | |];
    try (exists []; split; [by rewrite app_nil_r | cbn; lia]).
  cbn [get_embedding_of].
  destruct (PyStr.all_space text) eqn:Hb.
  - rewrite get_embedding_blank_run by done. eexists. split; [done|cbn; lia].
  - rewrite get_embedding_nonblank_run by done.
    exists [VoEmbed text "voyage-large-2" "document"].
    destruct (vo_embed env text _ _ (world s)) as [[[|vec l]|e] w];
      (split; [done|cbn; lia]).
Qed.

Lemma get_embedding_of_result v (s : state World float) e s' :
  get_embedding_of env v s = (Ret e, s') ->
  exists text vec,
    v = VStr text /\ e = Some vec /\
    get_embedding env text s = (Ret (Some vec), s').
Proof.
  destruct v as [text| | | |]; try done. cbn [get_embedding_of].
  intros Hrun. exists text.
  pose proof (get_embedding_not_None env text s) as Hn.
  rewrite Hrun in Hn. destruct e as [vec|]; [|done]. eauto.
Qed.

(** The loop of [apply]: at most one request per element. *)
Lemma apply_loop_events series acc (s : state World float) :
  exists evs,
    log (snd (for_each series
                (fun v embeddings =>
                   bind (get_embedding_of env v)
                     (fun e => ret (embeddings ++ [e])))
                acc s)) = log s ++ evs /\
    (length (embed_requests evs) <= length series)%nat.
Proof.
  revert acc s. induction series as [|v series IH]; intros acc s.
  - exists []. split; [by rewrite app_nil_r | cbn; lia].
  - cbn [for_each]. unfold bind at 1 2.
    destruct (get_embedding_of_events v s) as (evs1 & Hlog1 & Hlen1).
    destruct (get_embedding_of env v s) as [[e|ex] s1]; cbn [snd] in *.
    + unfold ret at 1.
      destruct (IH (acc ++ [e]) s1) as (evs2 & Hlog2 & Hlen2).
      exists (evs1 ++ evs2). rewrite Hlog2, Hlog1, app_assoc.
      split; [done|]. rewrite embed_requests_app, length_app. cbn. lia.
    + exists evs1. split; [done|]. cbn. lia.
Qed.

(** An entry that is a string is held by the record. *)
Lemma entry_str c (r : doc) text :
  entry env c r = VStr text -> r !! c = Some (VStr text).
Proof. unfold entry. destruct (r !! c); [by intros ->|done]. Qed.

(** The loop of [apply] over the descriptions of some records: what it
    returns, call by call. *)
Lemma apply_loop_embedded (rs : list doc) acc (s : state World float)
    out s' :
  for_each (entry env "description" <$> rs)
    (fun v embeddings =>
       bind (get_embedding_of env v) (fun e => ret (embeddings ++ [e])))
    acc s = (Ret out, s') ->
  exists es,
    out = acc ++ es /\
    embedded_from env s rs
      (zip_with (fun (r : doc) e => <["embedding" := embedding_value e]> r)
         rs es)
      s'.
Proof.
  revert acc s. induction rs as [|r rs IH]; intros acc s.
  - cbn. intros [= <- <-]. exists []. rewrite app_nil_r.
    split; [done|constructor].
  - rewrite fmap_cons. cbn [for_each]. unfold bind at 1 2.
    destruct (get_embedding_of env (entry env "description" r) s)
      as [[e|ex] s1] eqn:Hone; [|done].
    unfold ret at 1. intros Hrest.
    apply IH in Hrest as (es & -> & Hall).
    apply get_embedding_of_result in Hone as (text & vec & Hv & -> & Hcall).
    exists (Some vec :: es). rewrite <- app_assoc. split; [done|].
    cbn [zip_with embedding_value].
    econstructor; [by apply entry_str|exact Hcall|exact Hall].
Qed.

(** What the embedding cell returns. *)
Lemma embed_cell_result (df : frame float) (s : state World float) df' s' :
  embed_cell env df s = (Ret df', s') ->
  "description" ∈ columns df /\
  columns df' = columns df ∪ {["embedding"]} /\
  embedded_from env s (records df) (records df') s'.
Proof.
  unfold embed_cell, column, bind at 1, has_column.
  case_bool_decide as Hcol; [|done].
  unfold ret at 1. unfold bind at 1, apply_get_embedding.
  destruct (for_each _ _ [] s) as [[es|ex] s1] eqn:Hloop; [|done].
  apply apply_loop_embedded in Hloop as (es' & -> & Hes). cbn [app].
  unfold ret. by intros [= <- <-].
Qed.

(** What a chain of calls leaves in the records. *)
Lemma embedded_from_fields (s s' : state World float) (rs rs' : list doc) :
  embedded_from env s rs rs' s' ->
  Forall2 (fun r r' =>
             exists text vec,
               r !! "description" = Some (VStr text) /\
               r' !! "embedding" = Some (VVector vec) /\
               (PyStr.all_space text = true -> vec = []) /\
               forall k, k <> "embedding" -> r' !! k = r !! k)
    rs rs'.
Proof.
  induction 1 as [|s s1 s2 r rs rs' text vec Hdesc Hcall _ IH];
    constructor; [|done].
  exists text, vec. split; [done|]. split; [apply lookup_insert_eq|].
  split.
  - intros Hblank. rewrite get_embedding_blank_run in Hcall by done.
    by injection Hcall as <- _.
  - intros k Hk. by rewrite lookup_insert_ne.
Qed.

Lemma cap_cell_records (df : frame float) :
  records (cap_cell df) = take 500 (records df).
Proof.
  unfold cap_cell, max_documents.
  destruct (500 <? length (records df))%nat eqn:Hlen; [done|].
  apply Nat.ltb_ge in Hlen. by rewrite take_ge.
Qed.

Lemma cap_cell_columns (df : frame float) :
  columns (cap_cell df) = columns df.
Proof. unfold cap_cell. by destruct (_ <? _)%nat. Qed.

Lemma cap_cell_length (df : frame float) :
  (length (records (cap_cell df)) <= 500)%nat.
Proof. rewrite cap_cell_records, length_take. lia. Qed.

(** X12. When the dataset host refuses the one location of the notebook,
    the loader returns [None], which the next cell does not expect: the run
    stops on [combined_df.drop] with an AttributeError, after the two lines
    of the loader, and no request is sent to the embedding service, to the
    database or to the language model. *)
Theorem run_all_stops_without_data hf_token uri q
    (s : state World float) r w :
  let headers := [("Authorization", "Bearer " +:+ hf_token)] in
  let url :=
    "https://huggingface.co/api/datasets/AIatMongoDB/tech-news-embeddings/parquet/default/train/0000.parquet" in
  requests_get env url headers (world s) = (Ret r, w) ->
  status_code r <> 200 ->
  run_all env hf_token uri q s =
    (Raise (Exn AttributeError "'NoneType' object has no attribute 'drop'"),
     State w
       (log s ++
        [HttpGet url headers;
         Print (failure_line url (status_code r));
         Print "No dataframes to concatenate."])).
Proof.
  intros headers url Hget Hcode.
  unfold run_all, preparation_cells, load_cell.
  unfold bind at 1 2.
  assert (Hans :
    answers env headers parquet_files (world s) = ([(url, Ret r)], w)).
  { unfold parquet_files. cbn [answers].
    change (requests_get env _ headers (world s))
      with (requests_get env url headers (world s)).
    by rewrite Hget. }
  pose proof (loader_run env parquet_files hf_token s) as Hrun.
  cbv zeta in Hrun. fold headers in Hrun. rewrite Hans in Hrun.
  cbn [fst snd] in Hrun.
  rewrite Hrun.
  2:{ constructor; [|constructor]. exists r. by split. }
  rewrite fmap_cons.
  change (omap (fetched_table env) [(url, Ret r)])
    with (match fetched_table env (url, Ret r) with
          | Some df => [df]
          | None => []
          end).
  unfold fetched_table, fetch_events. cbn [fst snd].
  apply Z.eqb_neq in Hcode. rewrite Hcode. cbn [concat app].
  reflexivity.
Qed.

(** X13. The embedding cell, run on the capped table, sends at most 500
    requests to the embedding service, however many records the dataset
    holds and whatever the service answers. *)
Theorem embed_cell_capped_requests (df : frame float)
    (s : state World float) :
  exists evs,
    log (snd (embed_cell env (cap_cell df) s)) = log s ++ evs /\
    (length (embed_requests evs) <= 500)%nat.
Proof.
  pose proof (cap_cell_length df) as Hcap.
  unfold embed_cell, column, bind at 1.
  destruct (has_column "description" (cap_cell df)).
  2:{ exists []. split; [by rewrite app_nil_r | cbn; lia]. }
  unfold ret at 1, bind, apply_get_embedding.
  destruct (apply_loop_events
              (entry env "description" <$> records (cap_cell df)) [] s)
    as (evs & Hlog & Hlen).
  exists evs. rewrite length_fmap in Hlen.
  split; [|lia].
  by destruct (for_each _ _ [] s) as [[es|ex] s1].
Qed.

(** X14. When the embedding cell returns, the table has the description
    column, and its records are those it was given, in order and in number,
    each now holding in [embedding] the vector that [get_embedding] returned
    when it was called on the description of that record, the calls being
    made in the order of the records, each in the state the one before left.
    Every description is a string; every other field is unchanged; a record
    whose description is blank is kept, with the empty vector. *)
Theorem embed_cell_keeps_records (df : frame float) (s : state World float)
    df' s' :
  embed_cell env df s = (Ret df', s') ->
  "description" ∈ columns df /\
  columns df' = columns df ∪ {["embedding"]} /\
  embedded_from env s (records df) (records df') s' /\
  length (records df') = length (records df) /\
  Forall2 (fun r r' =>
             exists text vec,
               r !! "description" = Some (VStr text) /\
               r' !! "embedding" = Some (VVector vec) /\
               (PyStr.all_space text = true -> vec = []) /\
               forall k, k <> "embedding" -> r' !! k = r !! k)
    (records df) (records df').
Proof.
  intros Hrun. apply embed_cell_result in Hrun as (Hcol & Hcols & Hchain).
  pose proof (embedded_from_fields _ _ _ _ Hchain) as Hfields.
  split; [done|]. split; [done|]. split; [done|].
  split; [symmetry; by eapply Forall2_length|done].
Qed.

End PreparationFacts.

Section PreparationMore.
Context {World float : Type}.
Variable env : services World float.

Abbreviation doc := (gmap string (value float)).

Lemma drop_column_result c (df : frame float) (s : state World float)
    df1 s1 :
  drop_column c (Some df) s = (Ret df1, s1) ->
  c ∈ columns df /\
  df1 = Frame (columns df ∖ {[c]}) (delete c <$> records df) /\
  s1 = s.
Proof.
  unfold drop_column, has_column. case_bool_decide as Hc; [|done].
  unfold ret. by intros [= <- <-].
Qed.

(** X15. When the cells of step 1 return a table, the loader had returned
    one that held the columns [_id], [embedding] and [description]; the
    table returned holds the first 500 of its records, without their [_id]
    and without the [embedding] column of the dataset, each with the vector
    that [get_embedding] returned for its description, the calls being made
    in order from the state the loader left.  So it has at most 500 records,
    none with an [_id] field. *)
Theorem preparation_cells_table hf_token (s : state World float) df' s' :
  preparation_cells env hf_token s = (Ret df', s') ->
  exists df s0,
    load_cell env hf_token s = (Ret (Some df), s0) /\
    "_id" ∈ columns df /\
    "embedding" ∈ columns df /\
    "description" ∈ columns df /\
    columns df' = columns df ∖ {["_id"]} /\
    embedded_from env s0
      (take 500 (delete "embedding" <$> (delete "_id" <$> records df)))
      (records df') s' /\
    (length (records df') <= 500)%nat /\
    Forall (fun r' : doc => r' !! "_id" = None) (records df').
Proof.
  unfold preparation_cells, bind at 1.
  destruct (load_cell env hf_token s) as [[combined_df|e] s0]; [|done].
  unfold bind at 1, drop_columns_cell, bind at 1.
  destruct combined_df as [df|]; [|done].
  destruct (drop_column "_id" (Some df) s0) as [[df1|e] s1] eqn:Hdrop1;
    [|done].
  apply drop_column_result in Hdrop1 as (Hid & -> & ->).
  destruct (drop_column "embedding" _ s0) as [[df2|e] s2] eqn:Hdrop2; [|done].
  apply drop_column_result in Hdrop2 as (Hemb & -> & ->).
  cbn [columns records] in *.
  intros Hembed.
  apply embed_cell_result in Hembed as (Hdesc & Hcols & Hchain).
  rewrite cap_cell_columns in Hdesc, Hcols. cbn [columns] in Hdesc, Hcols.
  rewrite cap_cell_records in Hchain. cbn [records] in Hchain.
  pose proof (embedded_from_fields _ _ _ _ _ Hchain) as Hfields.
  exists df, s0. split; [done|]. split; [done|].
  pose proof Hemb as [Hemb' _]%elem_of_difference.
  pose proof Hdesc as [[Hdesc' _]%elem_of_difference _]%elem_of_difference.
  split; [done|]. split; [done|].
  split.
  { rewrite Hcols. apply set_eq. intros k.
    rewrite !elem_of_union, !elem_of_difference, !elem_of_singleton.
    split.
    - intros [[[? ?] ?]| ->]; [done|].
      apply elem_of_difference in Hemb as [? Hne].
      by rewrite elem_of_singleton in Hne.
    - intros [? ?]. destruct (decide (k = "embedding")); [by right|by left]. }
  split; [done|]. split.
  - rewrite <- (Forall2_length _ _ _ Hfields), length_take. lia.
  - assert (Hclean : Forall (fun r : doc => r !! "_id" = None)
              (take 500 (delete "embedding" <$> (delete "_id" <$> records df)))).
    { apply Forall_take, Forall_fmap, Forall_fmap, Forall_forall.
      intros r _. cbn. rewrite lookup_delete_ne by done.
      apply lookup_delete_eq. }
    clear Hchain. induction Hfields as [|r r' rs rs' Hr _ IH];
      [constructor|].
    apply Forall_cons in Hclean as [Hnone Hclean].
    constructor; [|by apply IH].
    destruct Hr as (_ & _ & _ & _ & _ & Hsame).
    by rewrite Hsame.
Qed.

End PreparationMore.

(** ** The further properties on the concrete worlds *)

(** The third of four locations serves an unreadable file. *)
Lemma loader_exception_stops_witness :
  download_and_combine_parquet_files Faulty.env
    (["https://hub/a.parquet"; "https://hub/gone.parquet"] ++
     "https://hub/broken.parquet" :: ["https://hub/b.parquet"])
    "hf_demo" Demo.empty_start =
  (Raise (Exn (OtherError "ArrowInvalid") "not a parquet file"),
   State []
     [HttpGet "https://hub/a.parquet" [("Authorization", "Bearer hf_demo")];
      HttpGet "https://hub/gone.parquet"
        [("Authorization", "Bearer hf_demo")];
      Print "Failed to download Parquet file from https://hub/gone.parquet: 404";
      HttpGet "https://hub/broken.parquet"
        [("Authorization", "Bearer hf_demo")]]).
Proof.
  rewrite (loader_exception_stops Faulty.env
             ["https://hub/a.parquet"; "https://hub/gone.parquet"]
             "https://hub/broken.parquet" ["https://hub/b.parquet"]
             "hf_demo" Demo.empty_start (Ret (Response 200 "junk")) []
             (Exn (OtherError "ArrowInvalid") "not a parquet file")).
  - reflexivity.
  - repeat constructor; eexists; (split; [reflexivity|]); cbn;
      first [ by intros [=] | intros _; eexists; reflexivity ].
  - reflexivity.
  - right. eexists. split; [reflexivity|]. by split.
Defined.

Lemma loader_requests_each_location_once_witness :
  exists evs,
    log (snd (download_and_combine_parquet_files Demo.env Demo.urls
                "hf_demo" Demo.empty_start)) = [] ++ evs /\
    http_requests evs =
      (fun url => (url, [("Authorization", "Bearer hf_demo")]))
        <$> Demo.urls.
Proof.
  apply (loader_requests_each_location_once Demo.env Demo.urls "hf_demo"
           Demo.empty_start).
  repeat constructor; eexists; (split; [reflexivity|]); cbn;
    first [ by intros [=] | intros _; eexists; reflexivity ].
Defined.

(** Two locations whose files have different columns. *)
Lemma loader_append_witness :
  let first :=
    download_and_combine_parquet_files Ragged.env ["https://hub/1.parquet"]
      "hf_demo" Demo.empty_start in
  let second :=
    download_and_combine_parquet_files Ragged.env ["https://hub/2.parquet"]
      "hf_demo" (snd first) in
  let both :=
    download_and_combine_parquet_files Ragged.env
      (["https://hub/1.parquet"] ++ ["https://hub/2.parquet"])
      "hf_demo" Demo.empty_start in
  let separate := loaded_rows (fst first) ++ loaded_rows (fst second) in
  loaded_columns (fst both) =
    loaded_columns (fst first) ∪ loaded_columns (fst second) /\
  Forall2 (fun (r' r : gmap string (value Z)) =>
             forall k,
               r' !! k =
                 match r !! k with
                 | Some v => Some v
                 | None =>
                     if decide (k ∈ loaded_columns (fst both))
                     then Some (VFloat (float_nan Ragged.env)) else None
                 end)
    (loaded_rows (fst both)) separate /\
  (Forall (fun r : gmap string (value Z) =>
             forall k, k ∈ loaded_columns (fst both) -> is_Some (r !! k))
     separate ->
   loaded_rows (fst both) = separate).
Proof.
  apply (loader_append Ragged.env ["https://hub/1.parquet"]
           ["https://hub/2.parquet"] "hf_demo" Demo.empty_start).
  repeat constructor; eexists; (split; [reflexivity|]); cbn;
    intros _; eexists; reflexivity.
Defined.

(** The embedding service answers with no vector: the search raises. *)
Lemma handle_user_query_search_failure_witness :
  handle_user_query Faulty.env "tech stocks" Demo.news Demo.start =
    (Raise (Exn IndexError "list index out of range"),
     State Demo.corpus [VoEmbed "tech stocks" "voyage-large-2" "document"]) /\
  exists evs : list (event Z),
    [VoEmbed "tech stocks" "voyage-large-2" "document"] = [] ++ evs /\
    lm_requests evs = [].
Proof.
  apply (proj2 (handle_user_query_search_failure Faulty.env "tech stocks"
                  Demo.news Demo.start)
           (Exn IndexError "list index out of range")
           (State Demo.corpus
              [VoEmbed "tech stocks" "voyage-large-2" "document"])).
  reflexivity.
Defined.

(** The same article with and without a score. *)
Lemma render_result_shown_fields_witness :
  render_result Demo.env (Demo.article "a1" 1) =
  render_result Demo.env (<["score" := VFloat 9]> (Demo.article "a1" 1)).
Proof.
  apply (render_result_shown_fields Demo.env (Demo.article "a1" 1)
           (<["score" := VFloat 9]> (Demo.article "a1" 1))).
  repeat constructor; by rewrite lookup_insert_ne.
Defined.

(** The URI is the empty string. *)
Lemma connect_cell_unset_uri_witness :
  exists evs,
    log (snd (connect_cell Demo.env (Some "") Demo.empty_start)) =
      [] ++ [Print "MONGO_URI not set in environment variables";
             MongoConnect (Some "")] ++ evs.
Proof.
  apply (connect_cell_unset_uri Demo.env (Some "") Demo.empty_start).
  reflexivity.
Defined.

Lemma run_from_connect_database_operations_witness :
  exists evs rest,
    log (snd (run_from_connect Demo.env (Some "mongodb://demo") Demo.corpus
                "tech stocks" Demo.empty_start)) = [] ++ evs /\
    db_operations evs =
      DeleteMany Demo.news ::
      match fst (delete_many Demo.env Demo.news []) with
      | Raise _ => []
      | Ret _ =>
          InsertMany Demo.news Demo.corpus ::
          match fst (insert_many Demo.env Demo.news Demo.corpus
                       (snd (delete_many Demo.env Demo.news []))) with
          | Raise _ => []
          | Ret _ => rest
          end
      end /\
    (length rest <= 1)%nat /\
    Forall (fun ev =>
              exists qe, ev = Aggregate Demo.news (search_pipeline qe))
      rest.
Proof.
  apply (run_from_connect_database_operations Demo.env
           (Some "mongodb://demo") Demo.corpus "tech stocks"
           Demo.empty_start (MongoClientHandle (Some "mongodb://demo")) []).
  reflexivity.
Defined.

(** The demonstration host does not know the location of the notebook. *)
Lemma run_all_stops_without_data_witness :
  run_all Demo.env "hf_demo" (Some "mongodb://demo") "tech stocks"
    Demo.empty_start =
  (Raise (Exn AttributeError "'NoneType' object has no attribute 'drop'"),
   State []
     [HttpGet
        "https://huggingface.co/api/datasets/AIatMongoDB/tech-news-embeddings/parquet/default/train/0000.parquet"
        [("Authorization", "Bearer hf_demo")];
      Print "Failed to download Parquet file from https://huggingface.co/api/datasets/AIatMongoDB/tech-news-embeddings/parquet/default/train/0000.parquet: 404";
      Print "No dataframes to concatenate."]).
Proof.
  apply (run_all_stops_without_data Demo.env "hf_demo"
           (Some "mongodb://demo") "tech stocks" Demo.empty_start
           (Response 404 "") []).
  - reflexivity.
  - done.
Defined.

Lemma embed_cell_keeps_records_witness :
  "description" ∈ columns Sample.dataset /\
  columns Sample.embedded = columns Sample.dataset ∪ {["embedding"]} /\
  embedded_from Sample.env Demo.empty_start
    (records Sample.dataset) (records Sample.embedded)
    (snd (embed_cell Sample.env Sample.dataset Demo.empty_start)) /\
  length (records Sample.embedded) = length (records Sample.dataset) /\
  Forall2 (fun (r r' : gmap string (value Z)) =>
             exists text vec,
               r !! "description" = Some (VStr text) /\
               r' !! "embedding" = Some (VVector vec) /\
               (PyStr.all_space text = true -> vec = []) /\
               forall k, k <> "embedding" -> r' !! k = r !! k)
    (records Sample.dataset) (records Sample.embedded).
Proof.
  apply (embed_cell_keeps_records Sample.env Sample.dataset Demo.empty_start
           Sample.embedded
           (snd (embed_cell Sample.env Sample.dataset Demo.empty_start))).
  vm_compute. reflexivity.
Defined.

Lemma preparation_cells_table_witness :
  exists df s0,
    load_cell Sample.env "hf_demo" Demo.empty_start = (Ret (Some df), s0) /\
    "_id" ∈ columns df /\
    "embedding" ∈ columns df /\
    "description" ∈ columns df /\
    columns Sample.prepared = columns df ∖ {["_id"]} /\
    embedded_from Sample.env s0
      (take 500 (delete "embedding" <$> (delete "_id" <$> records df)))
      (records Sample.prepared)
      (snd (preparation_cells Sample.env "hf_demo" Demo.empty_start)) /\
    (length (records Sample.prepared) <= 500)%nat /\
    Forall (fun r' : gmap string (value Z) => r' !! "_id" = None)
      (records Sample.prepared).
Proof.
  apply (preparation_cells_table Sample.env "hf_demo" Demo.empty_start
           Sample.prepared
           (snd (preparation_cells Sample.env "hf_demo" Demo.empty_start))).
  vm_compute. reflexivity.
Defined.

(** The prepared table of the sample: three records, the second with the
    empty vector. *)
Example sample_prepared :
  (fun r : gmap string (value Z) =>
     (get_or_NA Sample.env r "title",
      match r !! "embedding" with
      | Some (VVector v) => Some (length v)
      | _ => None
      end)) <$> records Sample.prepared
  = [("Chips", Some 1536%nat); ("Untitled", Some 0%nat);
     ("Clouds", Some 1536%nat)].
Proof. vm_compute. reflexivity. Qed.
